(** * Country Explorer ([app.js]): shallow embedding and verified properties

    The script is browser glue: a theme store, one HTTP lookup, three
    formatters and a view controller that shows one of three panels.  The
    embedding keeps the script's structure:

    - JavaScript strings are [string]s, one [ascii] per UTF-16 code unit
      (the model keeps the code units below 256);
    - a property that may be missing from a JSON object is an [option]
      ([None] is [undefined]); a JSON object used as a map is the list of
      its entries in own-property enumeration order; a JSON array is a list;
    - reading a property of [undefined] raises a [TypeError]; exceptions,
      the page and [localStorage] are threaded by a state-and-exception monad;
    - an [await] is sequential composition (one search at a time);
      [console] output is not part of the state. *)

From Stdlib Require Import String Ascii List ZArith Lia DecimalString.
From stdpp Require Import gmap strings list fin_maps functions.

Local Open Scope string_scope.

(** ** Host functions on strings *)

Module Js.

(** The double quote, U+0022. *)
Definition dquote : string := String "034"%char EmptyString.

(** [ToString] of an array length, an HTTP status or any other natural
    number: its decimal numeral. *)
Definition nat_to_string (n : nat) : string :=
  NilZero.string_of_uint (Nat.to_uint n).

(** A template-literal hole [${x}]: [undefined] prints as "undefined". *)
Definition template (x : option string) : string :=
  match x with Some s => s | None => "undefined" end.

(** [x ? a : b] on a string-or-undefined: the empty string and
    [undefined] are falsy. *)
Definition truthy (x : option string) : bool :=
  match x with
  | Some s => negb (String.eqb s "")
  | None => false
  end.

(** [Array.prototype.join]: [undefined] elements are joined as "". *)
Definition join (sep : string) (l : list (option string)) : string :=
  String.concat sep (map (fun x => match x with Some s => s | None => "" end) l).

(** [Object.values]: the values in own-property enumeration order. *)
Definition Object_values {A : Type} (o : list (string * A)) : list A :=
  map snd o.

(** [String.prototype.includes]. *)
Fixpoint includes (needle hay : string) : bool :=
  String.prefix needle hay ||
  match hay with
  | EmptyString => false
  | String _ rest => includes needle rest
  end.

(** WhiteSpace and LineTerminator code units below 256: TAB, LF, VT, FF,
    CR, SP and NBSP. *)
Definition is_white_space (c : ascii) : bool :=
  let n := nat_of_ascii c in
  (n =? 9)%nat || (n =? 10)%nat || (n =? 11)%nat || (n =? 12)%nat ||
  (n =? 13)%nat || (n =? 32)%nat || (n =? 160)%nat.

Fixpoint trimStart (s : string) : string :=
  match s with
  | EmptyString => EmptyString
  | String c rest => if is_white_space c then trimStart rest else s
  end.

Fixpoint trimEnd (s : string) : string :=
  match s with
  | EmptyString => EmptyString
  | String c rest =>
      match trimEnd rest with
      | EmptyString => if is_white_space c then EmptyString else String c EmptyString
      | t => String c t
      end
  end.

(** [String.prototype.trim]. *)
Definition trim (s : string) : string := trimEnd (trimStart s).

(** [encodeURIComponent] on code units below 256: the unreserved set
    [A-Z a-z 0-9 - _ . ! ~ * ' ( )] is kept, anything else is escaped as
    the percent-encoded bytes of its UTF-8 form. *)
Definition is_uri_unreserved (c : ascii) : bool :=
  let n := nat_of_ascii c in
  ((65 <=? n) && (n <=? 90))%nat || ((97 <=? n) && (n <=? 122))%nat ||
  ((48 <=? n) && (n <=? 57))%nat ||
  bool_decide (n ∈ [45; 95; 46; 33; 126; 42; 39; 40; 41]%nat).

Definition hex_digit (n : nat) : ascii :=
  if (n <? 10)%nat then ascii_of_nat (48 + n) else ascii_of_nat (55 + n).

Definition percent_byte (n : nat) : string :=
  String "%"%char (String (hex_digit (n / 16)) (String (hex_digit (n mod 16)) EmptyString)).

Definition encode_unit (c : ascii) : string :=
  let n := nat_of_ascii c in
  if is_uri_unreserved c then String c EmptyString
  else if (n <? 128)%nat then percent_byte n
  else percent_byte (192 + n / 64) +:+ percent_byte (128 + n mod 64).

Fixpoint encodeURIComponent (s : string) : string :=
  match s with
  | EmptyString => EmptyString
  | String c rest => encode_unit c +:+ encodeURIComponent rest
  end.

End Js.

(** ** Data model: the JSON the script consumes *)

(** One entry of the [currencies] object. *)
Record currency := Currency {
  curr_name : option string;
  symbol : option string
}.

(** ** Data formatting utilities *)

(** [getLanguages(languages)]: the guard [!languages] fires on an absent
    map only, an object (even [{}]) being truthy. *)
Definition getLanguages (languages : option (list (string * string))) : list string :=
  match languages with
  | None => ["Not available"]
  | Some o => Js.Object_values o
  end.

(** The arrow function mapped over the currencies in [getCurrencies]. *)
Definition currency_entry (curr : currency) : option string :=
  if Js.truthy (symbol curr)
  then Some (Js.template (curr_name curr) +:+ " (" +:+ Js.template (symbol curr) +:+ ")")
  else curr_name curr.

(** [getCurrencies(currencies)]. *)
Definition getCurrencies (currencies : option (list (string * currency))) : string :=
  match currencies with
  | None => "Not available"
  | Some o =>
      let currencyList := map currency_entry (Js.Object_values o) in
      Js.join ", " currencyList
  end.


(** The nested objects of a country record. *)
Record country_name := CountryName {
  common : option string;
  official : option string
}.

Record country_flags := CountryFlags {
  svg : option string
}.

Record country_idd := CountryIdd {
  root : option string;
  suffixes : option (list string)
}.

(** A thrown value: the script only ever reads [error.message]. *)
Record error := Error {
  message : string
}.

(** How a call or an awaited promise ends. *)
Inductive outcome (A : Type) : Type :=
| Normal (a : A)
| Throw (e : error).
Arguments Normal {A} a.
Arguments Throw {A} e.

(** The [TypeError] raised by reading property [key] of [undefined]
    (V8's wording of the message). *)
Definition TypeError_undefined (key : string) : error :=
  Error ("Cannot read properties of undefined (reading '" +:+ key +:+ "')").

(** ** The page *)

(** A badge: the [span] built by [createBadge]. *)
Record badge := Badge {
  className : string;
  style_background : string;
  style_color : string;
  badge_textContent : string
}.

(** What the script reads or writes of an element.  [textContent] is the
    text the script assigned to the element itself: the text of what the
    element contains (the badges appended to a container, the paragraph
    inside the error region) is kept apart, in [children] and in the
    [errorParagraph] of the state. *)
Record element := Element {
  classList : gset string;
  textContent : string;
  src : string;
  alt : string;
  value : string;
  children : list badge
}.

Section CountryExplorer.

(** JavaScript numbers are IEEE doubles, printed by the host: the number
    type and its two printers are parameters. *)
Context {number : Type}.
(** [Number.prototype.toLocaleString('en-US')]. *)
Variable toLocaleString : number → string.
(** [ToString] of a number in a template literal. *)
Variable number_to_string : number → string.

(** One element of the array the name-search endpoint answers with. *)
Record country := Country {
  name : option country_name;
  flags : option country_flags;
  capital : option (list string);
  region : option string;
  subregion : option string;
  population : option number;
  area : option number;
  currencies : option (list (string * currency));
  languages : option (list (string * string));
  tld : option (list string);
  latlng : option (list number);
  timezones : option (list string);
  continents : option (list string);
  idd : option country_idd;
  borders : option (list string);
  independent : option bool;
  unMember : option bool
}.

(** The parsed body of a response: [None] is a [null] body. *)
Definition payload : Type := option (list country).

(** A [Response]: [json] is how the promise of [response.json()] settles. *)
Record response := Response {
  status : nat;
  statusText : string;
  json : outcome payload
}.

(** [response.ok]: the status is in the range 200-299. *)
Definition ok (r : response) : bool :=
  ((200 <=? status r) && (status r <=? 299))%nat.

(** The browser state the script acts on.  The markup is not part of the
    script: every id the script looks up is taken to exist, and a region
    is visible when its class list lacks "hidden". *)
Record world := World {
  documentElement : gmap string string;
  byId : string → element;
  errorParagraph : string;
  localStorage : gmap string string;
  prefersDark : bool;
  network : string → outcome response;
  requests : list string;
  scrolledTo : option string
}.

Definition set_documentElement (f : gmap string string → gmap string string) (w : world) : world :=
  World (f (documentElement w)) (byId w) (errorParagraph w) (localStorage w)
        (prefersDark w) (network w) (requests w) (scrolledTo w).

Definition set_byId (f : (string → element) → (string → element)) (w : world) : world :=
  World (documentElement w) (f (byId w)) (errorParagraph w) (localStorage w)
        (prefersDark w) (network w) (requests w) (scrolledTo w).

Definition set_errorParagraph (s : string) (w : world) : world :=
  World (documentElement w) (byId w) s (localStorage w)
        (prefersDark w) (network w) (requests w) (scrolledTo w).

Definition set_localStorage (f : gmap string string → gmap string string) (w : world) : world :=
  World (documentElement w) (byId w) (errorParagraph w) (f (localStorage w))
        (prefersDark w) (network w) (requests w) (scrolledTo w).

Definition set_requests (f : list string → list string) (w : world) : world :=
  World (documentElement w) (byId w) (errorParagraph w) (localStorage w)
        (prefersDark w) (network w) (f (requests w)) (scrolledTo w).

Definition set_scrolledTo (id : string) (w : world) : world :=
  World (documentElement w) (byId w) (errorParagraph w) (localStorage w)
        (prefersDark w) (network w) (requests w) (Some id).

(** ** The monad of script code: state and exceptions *)

Definition M (A : Type) : Type := world → outcome A * world.

#[global] Instance M_ret : MRet M := λ A a w, (Normal a, w).

#[global] Instance M_bind : MBind M := λ A B f m w,
  match m w with
  | (Normal a, w') => f a w'
  | (Throw e, w') => (Throw e, w')
  end.

(** [throw e]. *)
Definition throw {A : Type} (e : error) : M A := λ w, (Throw e, w).

(** [try { body } catch (error) { handler }]. *)
Definition try_catch {A : Type} (body : M A) (handler : error → M A) : M A := λ w,
  match body w with
  | (Normal a, w') => (Normal a, w')
  | (Throw e, w') => handler e w'
  end.

Definition gets {A : Type} (f : world → A) : M A := λ w, (Normal (f w), w).
Definition modify (f : world → world) : M unit := λ w, (Normal tt, f w).

(** [await p]: a rejected promise throws. *)
Definition await {A : Type} (p : outcome A) : M A :=
  match p with
  | Normal a => mret a
  | Throw e => throw e
  end.

(** [o.key] for an [o] that may be [undefined]. *)
Definition prop {A : Type} (o : option A) (key : string) : M A :=
  match o with
  | Some a => mret a
  | None => throw (TypeError_undefined key)
  end.

(** [array.forEach(f)]. *)
Fixpoint forEach {A : Type} (l : list A) (f : A → M unit) : M unit :=
  match l with
  | [] => mret tt
  | x :: rest => f x ;; forEach rest f
  end.

(** The final state and the result of running a piece of script. *)
Definition exec {A : Type} (m : M A) (w : world) : world := (m w).2.
Definition result {A : Type} (m : M A) (w : world) : outcome A := (m w).1.

(** ** Page primitives *)

Definition with_classList (f : gset string → gset string) (e : element) : element :=
  Element (f (classList e)) (textContent e) (src e) (alt e) (value e) (children e).
Definition with_textContent (s : string) (e : element) : element :=
  Element (classList e) s (src e) (alt e) (value e) (children e).
Definition with_src (s : string) (e : element) : element :=
  Element (classList e) (textContent e) s (alt e) (value e) (children e).
Definition with_alt (s : string) (e : element) : element :=
  Element (classList e) (textContent e) (src e) s (value e) (children e).
Definition with_children (f : list badge → list badge) (e : element) : element :=
  Element (classList e) (textContent e) (src e) (alt e) (value e) (f (children e)).

(** [document.getElementById(id).classList.add(token)]. *)
Definition classList_add (id token : string) : M unit :=
  modify (set_byId (alter (with_classList (λ c, {[token]} ∪ c)) id)).

(** [document.getElementById(id).classList.remove(token)]. *)
Definition classList_remove (id token : string) : M unit :=
  modify (set_byId (alter (with_classList (λ c, c ∖ {[token]})) id)).

(** [document.getElementById(id).textContent = v]: the attribute is a
    nullable string, so [undefined] is written as the empty string. *)
Definition set_textContent (id : string) (v : option string) : M unit :=
  modify (set_byId (alter (with_textContent (default "" v)) id)).

(** [document.getElementById(id).src = v]: [undefined] is written as
    "undefined". *)
Definition set_src (id : string) (v : option string) : M unit :=
  modify (set_byId (alter (with_src (Js.template v)) id)).

(** [document.getElementById(id).alt = s]. *)
Definition set_alt (id s : string) : M unit :=
  modify (set_byId (alter (with_alt s) id)).

(** [document.getElementById(id).innerHTML = '']. *)
Definition clear_innerHTML (id : string) : M unit :=
  modify (set_byId (alter (λ e, with_textContent "" (with_children (λ _, []) e)) id)).

(** [document.getElementById(id).appendChild(b)]. *)
Definition appendChild (id : string) (b : badge) : M unit :=
  modify (set_byId (alter (with_children (λ c, (c ++ [b])%list)) id)).

(** [document.getElementById(id).value]. *)
Definition get_value (id : string) : M string :=
  gets (λ w, value (byId w id)).

(** [document.getElementById(id).scrollIntoView(...)]. *)
Definition scrollIntoView (id : string) : M unit :=
  modify (set_scrolledTo id).

(** [document.documentElement.getAttribute(a)]: [None] is [null]. *)
Definition getAttribute (a : string) : M (option string) :=
  gets (λ w, documentElement w !! a).

(** [document.documentElement.setAttribute(a, v)]. *)
Definition setAttribute (a v : string) : M unit :=
  modify (set_documentElement (insert a v)).

(** [localStorage.getItem(k)] and [localStorage.setItem(k, v)]. *)
Definition getItem (k : string) : M (option string) :=
  gets (λ w, localStorage w !! k).
Definition setItem (k v : string) : M unit :=
  modify (set_localStorage (insert k v)).

(** [fetch(url)]: the request is recorded, then the promise is awaited. *)
Definition fetch (url : string) : M response :=
  modify (set_requests (λ l, (l ++ [url])%list)) ;;
  p ← gets (λ w, network w url);
  await p.

(** ** Theme management *)

(** [setTheme(theme)]. *)
Definition setTheme (theme : string) : M unit :=
  setAttribute "data-theme" theme ;;
  setItem "theme" theme ;;
  if String.eqb theme "dark" then
    classList_add "sunIcon" "hidden" ;;
    classList_remove "moonIcon" "hidden"
  else
    classList_remove "sunIcon" "hidden" ;;
    classList_add "moonIcon" "hidden".

(** [toggleTheme()]. *)
Definition toggleTheme : M unit :=
  currentTheme ← getAttribute "data-theme";
  let newTheme := if bool_decide (currentTheme = Some "dark") then "light" else "dark" in
  setTheme newTheme.

(** [initializeTheme()]: an empty saved string is falsy, like [null]. *)
Definition initializeTheme : M unit :=
  savedTheme ← getItem "theme";
  prefers ← gets prefersDark;
  let theme :=
    if Js.truthy savedTheme then Js.template savedTheme
    else if (prefers : bool) then "dark" else "light" in
  setTheme theme.

(** ** API interaction *)

Definition not_found_message (countryName : string) : string :=
  "Country " +:+ Js.dquote +:+ countryName +:+ Js.dquote +:+
  " not found. Please check the spelling and try again.".

Definition api_error_message (r : response) : string :=
  "API Error: " +:+ Js.nat_to_string (status r) +:+ " - " +:+ statusText r.

Definition no_data_message : string := "No data returned from API".

Definition network_error_message : string :=
  "Network error. Please check your internet connection and make sure you are running this through a web server (not file://)".

Definition api_url (countryName : string) : string :=
  "https://restcountries.com/v3.1/name/" +:+ Js.encodeURIComponent countryName.

(** [fetchCountryData(countryName)]. *)
Definition fetchCountryData (countryName : string) : M country :=
  let apiUrl := api_url countryName in
  try_catch
    (response ← fetch apiUrl;
     if (status response =? 404)%nat then
       throw (Error (not_found_message countryName))
     else if negb (ok response) then
       throw (Error (api_error_message response))
     else
       data ← await (json response);
       match data with
       | Some (first :: _) => mret first
       | _ => throw (Error no_data_message)
       end)
    (λ error,
       if Js.includes "Failed to fetch" (message error) then
         throw (Error network_error_message)
       else throw error).

(** ** UI update functions *)

(** [formatNumber(num)]: the method is read off [num], so an [undefined]
    number raises. *)
Definition formatNumber (num : option number) : M string :=
  n ← prop num "toLocaleString";
  mret (toLocaleString n).

(** [createBadge(text)]. *)
Definition createBadge (text : string) : badge :=
  Badge "px-4 py-2 rounded-lg text-sm font-medium"
        "linear-gradient(135deg, var(--accent-primary), var(--accent-secondary))"
        "white"
        text.

(** A number-or-undefined in a template literal. *)
Definition number_template (x : option number) : string :=
  match x with Some n => number_to_string n | None => "undefined" end.

(** The expression assigned to the text of [capital] (and of [continent]). *)
Definition first_or_not_available (l : option (list string)) : option string :=
  match l with
  | Some a => a !! 0%nat
  | None => Some "Not available"
  end.

Definition region_text (c : country) : string :=
  Js.template (region c) +:+
  (if Js.truthy (subregion c) then " - " +:+ Js.template (subregion c) else "").

Definition map_url (lat lng : option number) : string :=
  "https://maps.google.com/maps?q=" +:+ number_template lat +:+ "," +:+
  number_template lng +:+ "&z=5&output=embed".

Definition calling_code (i : country_idd) : string :=
  if Js.truthy (root i) then
    Js.template (root i) +:+
    Js.template (match suffixes i with Some l => l !! 0%nat | None => Some "" end)
  else "Not available".

Definition borders_text (c : country) : string :=
  match borders c with
  | Some l => Js.nat_to_string (length l) +:+ " countries"
  | None => "None (island/isolated)"
  end.

Definition yes_no (b : option bool) : string :=
  if default false b then "Yes" else "No".

(** The unit suffix of the area, " km" followed by U+00B2. *)
Definition km2 : string := " km" +:+ String "178"%char EmptyString.

(** [displayCountryInfo(country)], statement by statement; the first read
    is the argument of the [console.log] that opens the function. *)
Definition displayCountryInfo (c : country) : M unit :=
  _ ← prop (name c) "common";
  flags_ ← prop (flags c) "svg";
  set_src "countryFlag" (svg flags_) ;;
  name_ ← prop (name c) "common";
  set_alt "countryFlag" ("Flag of " +:+ Js.template (common name_)) ;;
  set_textContent "countryName" (common name_) ;;
  set_textContent "officialName" (official name_) ;;
  set_textContent "capital" (first_or_not_available (capital c)) ;;
  set_textContent "region" (Some (region_text c)) ;;
  population_ ← formatNumber (population c);
  set_textContent "population" (Some population_) ;;
  area_ ← formatNumber (area c);
  set_textContent "area" (Some (area_ +:+ km2)) ;;
  set_textContent "currencies" (Some (getCurrencies (currencies c))) ;;
  clear_innerHTML "languages" ;;
  forEach (getLanguages (languages c)) (λ lang, appendChild "languages" (createBadge lang)) ;;
  clear_innerHTML "domains" ;;
  let domains := default ["Not available"] (tld c) in
  forEach domains (λ domain, appendChild "domains" (createBadge domain)) ;;
  latlng0 ← prop (latlng c) "0";
  let lat := latlng0 !! 0%nat in
  latlng1 ← prop (latlng c) "1";
  let lng := latlng1 !! 1%nat in
  set_src "countryMap" (Some (map_url lat lng)) ;;
  timezones_ ← prop (timezones c) "join";
  set_textContent "timezones" (Some (Js.join ", " (map Some timezones_))) ;;
  set_textContent "continent" (first_or_not_available (continents c)) ;;
  idd_ ← prop (idd c) "root";
  let callingCode := calling_code idd_ in
  set_textContent "callingCode" (Some callingCode) ;;
  set_textContent "borders" (Some (borders_text c)) ;;
  set_textContent "independent" (Some (yes_no (independent c))) ;;
  set_textContent "unMember" (Some (yes_no (unMember c))).

(** [showLoading()]. *)
Definition showLoading : M unit :=
  classList_remove "loadingState" "hidden" ;;
  classList_add "resultsContainer" "hidden" ;;
  classList_add "errorMessage" "hidden".

(** [showResults()]. *)
Definition showResults : M unit :=
  classList_add "loadingState" "hidden" ;;
  classList_remove "resultsContainer" "hidden" ;;
  classList_add "errorMessage" "hidden" ;;
  scrollIntoView "resultsContainer".

(** [showError(message)]. *)
Definition showError (msg : string) : M unit :=
  modify (set_errorParagraph msg) ;;
  classList_remove "errorMessage" "hidden" ;;
  classList_add "loadingState" "hidden" ;;
  classList_add "resultsContainer" "hidden".

(** ** Main search function *)

(** [searchCountry()]. *)
Definition searchCountry : M unit :=
  input ← get_value "countryInput";
  let countryName := Js.trim input in
  if String.eqb countryName "" then
    showError "Please enter a country name"
  else
    showLoading ;;
    try_catch
      (countryData ← fetchCountryData countryName;
       displayCountryInfo countryData ;;
       showResults)
      (λ error, showError (message error)).

(** ** Event listeners and initialization *)

(** The events the script listens to: a click on the theme toggle, a click
    on the search button, a key pressed in the input field. *)
Inductive event : Type :=
| ThemeToggleClick
| SearchClick
| Keypress (key : string).

(** The [keypress] listener of the input field. *)
Definition onKeypress (key : string) : M unit :=
  if String.eqb key "Enter" then searchCountry else mret tt.

(** The listener registered for each event. *)
Definition dispatch (ev : event) : M unit :=
  match ev with
  | ThemeToggleClick => toggleTheme
  | SearchClick => searchCountry
  | Keypress key => onKeypress key
  end.

(** What happens on the page after it has loaded: the user edits the
    input field, or an event is dispatched to its listener. *)
Inductive action : Type :=
| UserTypes (text : string)
| Fire (ev : event).

Definition with_value (s : string) (e : element) : element :=
  Element (classList e) (textContent e) (src e) (alt e) s (children e).

Definition perform (a : action) : M unit :=
  match a with
  | UserTypes text => modify (set_byId (alter (with_value text) "countryInput"))
  | Fire ev => dispatch ev
  end.

(** The script's top level, [initializeTheme()], followed by a session of
    user actions. *)
Definition session (actions : list action) : M unit :=
  initializeTheme ;; forEach actions perform.

End CountryExplorer.

(** ** Observations on the page *)

Section Observations.
Context {number : Type}.

(** The theme applied to the root element and the persisted preference. *)
Definition applied_theme (w : @world number) : option string :=
  documentElement w !! "data-theme".
Definition persisted_theme (w : @world number) : option string :=
  localStorage w !! "theme".

(** A region is visible when its class list lacks "hidden". *)
Definition visible (w : @world number) (id : string) : Prop :=
  "hidden" ∉ classList (byId w id).

(** The three states of the view and the region each one shows. *)
Inductive ViewState : Type := Loading | Results | Failed.

Definition region_of (s : ViewState) : string :=
  match s with
  | Loading => "loadingState"
  | Results => "resultsContainer"
  | Failed => "errorMessage"
  end.

(** The page is in state [s]: of the three regions, the one of [s] is
    visible and the other two are hidden. *)
Definition in_state (w : @world number) (s : ViewState) : Prop :=
  ∀ s', visible w (region_of s') ↔ s' = s.

(** The state after the request for [countryName] has been recorded. *)
Definition requested (countryName : string) (w : @world number) : @world number :=
  set_requests (λ l, (l ++ [api_url countryName])%list) w.

(** What the handler of [fetchCountryData] throws when it catches [e]. *)
Definition rethrown (e : error) : error :=
  if Js.includes "Failed to fetch" (message e) then Error network_error_message else e.

(** The page after the badges [bs] have been appended to the element [id],
    one [appendChild] each. *)
Fixpoint append_all (id : string) (bs : list badge) (e : string → element) : string → element :=
  match bs with
  | [] => e
  | b :: rest => append_all id rest (alter (with_children (λ c, (c ++ [b])%list)) id e)
  end.

(** A property is present: it is not [undefined]. *)
Definition present {A : Type} (o : option A) : bool :=
  match o with Some _ => true | None => false end.

(** The properties [displayCountryInfo] reads a property or a method of:
    an absent one raises a [TypeError]. *)
Definition raises_nothing (c : @country number) : bool :=
  present (name c) && present (flags c) && present (population c) &&
  present (area c) && present (latlng c) && present (timezones c) && present (idd c).

(** A piece of script leaves the observation [obs] of the state as it was,
    however it ends. *)
Definition keeps {A B : Type} (obs : @world number → B) (m : @M number A) : Prop :=
  ∀ w, obs (m w).2 = obs w.

(** The property whose read raises first in [displayCountryInfo], in the
    order of its statements; [None] when nothing raises. *)
Definition first_missing (c : @country number) : option string :=
  if negb (present (name c)) then Some "common"
  else if negb (present (flags c)) then Some "svg"
  else if negb (present (population c)) then Some "toLocaleString"
  else if negb (present (area c)) then Some "toLocaleString"
  else if negb (present (latlng c)) then Some "0"
  else if negb (present (timezones c)) then Some "join"
  else if negb (present (idd c)) then Some "root"
  else None.

(** The icon shown by the theme toggle: the moon for the dark theme, the
    sun for any other. *)
Definition icons_match (w : @world number) : Prop :=
  (visible w "moonIcon" ↔ applied_theme w = Some "dark")
  ∧ (visible w "sunIcon" ↔ applied_theme w ≠ Some "dark").

(** The theme store is consistent: the persisted preference is the theme
    applied, and the toggle shows the icon of that theme. *)
Definition theme_consistent (w : @world number) : Prop :=
  persisted_theme w = applied_theme w
  ∧ is_Some (applied_theme w)
  ∧ icons_match w.

End Observations.

(** ** The specification's wording

    These definitions follow the specification, not the script; they are
    what the script is compared with. *)

(** [extractLanguages] as specified: the fallback for an absent or empty map. *)
Definition extractLanguages_stated (langMap : option (list (string * string))) : list string :=
  match langMap with
  | None | Some [] => ["Not available"]
  | Some o => map snd o
  end.

(** One currency as specified: "Name (Symbol)" when the symbol is present. *)
Definition currency_entry_stated (n : string) (sym : option string) : string :=
  match sym with
  | Some s => n +:+ " (" +:+ s +:+ ")"
  | None => n
  end.

(** One currency as the script shows it: an empty symbol counts as absent. *)
Definition currency_entry_shown (n : string) (sym : option string) : string :=
  match sym with
  | Some s => if decide (s = "") then n else n +:+ " (" +:+ s +:+ ")"
  | None => n
  end.

(** The precondition of [displayCountryInfo] as stated: name (with common
    and official), flags (with svg), region, population, area, latlng (with
    at least two elements), timezones and idd are present. *)
Definition stated_precondition {number : Type} (c : @country number) : bool :=
  match name c with Some nm => present (common nm) && present (official nm) | None => false end &&
  match flags c with Some fl => present (svg fl) | None => false end &&
  present (region c) && present (population c) && present (area c) &&
  match latlng c with Some ll => (2 <=? length ll)%nat | None => false end &&
  present (timezones c) && present (idd c).

(** The borders field as specified: the default for an absent or empty list. *)
Definition borders_stated (b : option (list string)) : string :=
  match b with
  | None | Some [] => "None (island/isolated)"
  | Some l => Js.nat_to_string (length l) +:+ " countries"
  end.

(** ** Escaped names

    The characters an escaped name is made of, and the reading back of an
    escaped name, which shows that no two names share an escape. *)

Definition url_safe (ch : ascii) : bool :=
  Js.is_uri_unreserved ch || Ascii.eqb ch "%".

Definition hex_value (ch : ascii) : option nat :=
  let n := nat_of_ascii ch in
  if ((48 <=? n) && (n <=? 57))%nat then Some (n - 48)%nat
  else if ((65 <=? n) && (n <=? 70))%nat then Some (n - 55)%nat
  else None.

(** The byte written as "%XY" at the head of a string, and what follows. *)
Definition read_byte (s : string) : option (nat * string) :=
  match s with
  | String "%" (String x (String y rest)) =>
      match hex_value x, hex_value y with
      | Some a, Some b => Some ((16 * a + b)%nat, rest)
      | _, _ => None
      end
  | _ => None
  end.

(** The code unit escaped at the head of a string, and what follows. *)
Definition read_unit (s : string) : option (ascii * string) :=
  match s with
  | EmptyString => None
  | String ch rest =>
      if Ascii.eqb ch "%" then
        match read_byte s with
        | Some (b, rest1) =>
            if (b <? 128)%nat then Some (ascii_of_nat b, rest1)
            else match read_byte rest1 with
                 | Some (b2, rest2) =>
                     Some (ascii_of_nat (64 * (b - 192) + (b2 - 128)), rest2)
                 | None => None
                 end
        | None => None
        end
      else Some (ch, rest)
  end.

(** ** Concrete hosts and pages, to run the script on

    Integers stand for the numbers of the sample records, printed in
    decimal and, for [toLocaleString('en-US')], in groups of three digits. *)

Definition Z_to_string (z : Z) : string :=
  NilZero.string_of_int (Z.to_int z).

Fixpoint group_digits (rev_digits : list ascii) (k : nat) : list ascii :=
  match rev_digits with
  | [] => []
  | d :: rest =>
      if (k =? 3)%nat then ","%char :: d :: group_digits rest 1
      else d :: group_digits rest (S k)
  end.

Definition Z_toLocaleString (z : Z) : string :=
  (if (z <? 0)%Z then "-" else "") +:+
  string_of_list_ascii
    (rev (group_digits (rev (list_ascii_of_string (Js.nat_to_string (Z.abs_nat z)))) 0)).

(** An element with no class, no text and no child. *)
Definition blank_element : element := Element ∅ "" "" "" "" [].

(** A page whose search box holds [input], served by [net]. *)
Definition sample_world (input : string) (net : string → outcome (@response Z)) : @world Z :=
  World ∅
        (λ id, if decide (id = "countryInput")
               then Element ∅ "" "" "" input []
               else blank_element)
        "" ∅ false net [] None.

(** A page whose root element carries the theme [t]. *)
Definition themed_world (t : string) : @world Z :=
  World {["data-theme" := t]} (λ _, blank_element) "" ∅ false
        (λ _, Throw (Error "Failed to fetch")) [] None.

(** A complete record. *)
Definition france : @country Z :=
  Country (Some (CountryName (Some "France") (Some "French Republic")))
          (Some (CountryFlags (Some "https://flagcdn.com/fr.svg")))
          (Some ["Paris"]) (Some "Europe") (Some "Western Europe")
          (Some 67391582%Z) (Some 551695%Z)
          (Some [("EUR", Currency (Some "Euro") (Some "E"))])
          (Some [("fra", "French")])
          (Some [".fr"])
          (Some [46%Z; 2%Z])
          (Some ["UTC-10:00"; "UTC+01:00"])
          (Some ["Europe"])
          (Some (CountryIdd (Some "+3") (Some ["3"])))
          (Some ["AND"; "BEL"; "DEU"; "ITA"; "LUX"; "MCO"; "ESP"; "CHE"])
          (Some true) (Some true).

(** A record with only the properties whose absence would raise: every
    guarded property is absent. *)
Definition bare_record : @country Z :=
  Country (Some (CountryName (Some "Nauru") (Some "Republic of Nauru")))
          (Some (CountryFlags (Some "https://flagcdn.com/nr.svg")))
          None (Some "Oceania") None
          (Some 10834%Z) (Some 21%Z)
          None None None
          (Some [0%Z; 166%Z])
          (Some ["UTC+12:00"])
          None
          (Some (CountryIdd (Some "+6") None))
          None None None.

(** [france] without its region. *)
Definition france_without_region : @country Z :=
  Country (name france) (flags france) (capital france) None (subregion france)
          (population france) (area france) (currencies france) (languages france)
          (tld france) (latlng france) (timezones france) (continents france)
          (idd france) (borders france) (independent france) (unMember france).

(** [france] with a capital list that is present but empty. *)
Definition france_with_empty_capital : @country Z :=
  Country (name france) (flags france) (Some []) (region france) (subregion france)
          (population france) (area france) (currencies france) (languages france)
          (tld france) (latlng france) (timezones france) (continents france)
          (idd france) (borders france) (independent france) (unMember france).

(** An island whose record carries an empty list of borders. *)
Definition island_with_empty_borders : @country Z :=
  Country (name bare_record) (flags bare_record) (capital bare_record)
          (region bare_record) (subregion bare_record)
          (population bare_record) (area bare_record) (currencies bare_record)
          (languages bare_record) (tld bare_record) (latlng bare_record)
          (timezones bare_record) (continents bare_record) (idd bare_record)
          (Some []) (independent bare_record) (unMember bare_record).

(** Networks: one that answers every request with [r]; the 404 and the 200
    responses. *)
Definition answer_with (r : @response Z) : string → outcome (@response Z) :=
  λ _, Normal r.
Definition not_found_response : @response Z :=
  Response 404 "Not Found" (Normal None).
Definition ok_response (data : @payload Z) : @response Z :=
  Response 200 "OK" (Normal data).

(** ** Running the script symbolically *)

Ltac run :=
  cbv beta iota zeta delta
    [exec result mbind M_bind mret M_ret throw try_catch gets modify await prop
     showLoading showResults showError classList_add classList_remove scrollIntoView
     setTheme toggleTheme initializeTheme setAttribute getAttribute setItem getItem
     set_textContent set_src set_alt clear_innerHTML appendChild get_value
     applied_theme persisted_theme];
  cbn [fst snd byId documentElement errorParagraph localStorage prefersDark network
       requests scrolledTo set_byId set_documentElement set_errorParagraph
       set_localStorage set_requests set_scrolledTo].

(** Reading an element of the page after a chain of updates. *)
Ltac read_element :=
  rewrite ?fn_lookup_alter_ne by (let H := fresh in intros H; discriminate H);
  rewrite ?fn_lookup_alter;
  cbn [classList textContent src alt value children
       with_classList with_textContent with_src with_alt with_children].

(** ** Presentation formatter *)

(** C1, corrected: [getLanguages] answers the fallback list for an absent map
    only; for every present map, the empty one included, it answers the
    map's values in iteration order, so [getLanguages({})] is the empty
    list and the specified behaviour is met on every non-empty map. *)
Theorem getLanguages_fallback_only_when_absent :
  getLanguages None = ["Not available"]
  ∧ (∀ o : list (string * string), getLanguages (Some o) = map snd o)
  ∧ getLanguages (Some []) = []
  ∧ (∀ kv o, getLanguages (Some (kv :: o)) = extractLanguages_stated (Some (kv :: o)))
  ∧ getLanguages (Some [("eng", "English"); ("fra", "French")]) = ["English"; "French"].
Proof. repeat split. Qed.

(** C1 as stated fails: the empty map is a truthy object, so the guard does
    not fire and the empty list comes back, not the fallback. *)
Lemma getLanguages_empty_map_no_fallback :
  getLanguages (Some []) = []
  ∧ getLanguages (Some []) ≠ extractLanguages_stated (Some []).
Proof. split; [reflexivity | discriminate]. Qed.

Lemma truthy_Some (s : string) : Js.truthy (Some s) = bool_decide (s ≠ "").
Proof.
  unfold Js.truthy. destruct (String.eqb_spec s "") as [->|Hne].
  - symmetry. apply bool_decide_eq_false_2. intros H. by apply H.
  - symmetry. by apply bool_decide_eq_true_2.
Qed.

Lemma currency_entry_named (n : string) (sym : option string) :
  currency_entry (Currency (Some n) sym) = Some (currency_entry_shown n sym).
Proof.
  unfold currency_entry, currency_entry_shown; cbn [symbol curr_name].
  destruct sym as [s|]; [|reflexivity].
  rewrite truthy_Some. destruct (decide (s = "")) as [->|Hne].
  - reflexivity.
  - by rewrite bool_decide_eq_true_2.
Qed.

(** C6, corrected: [getCurrencies] answers "Not available" for an absent map;
    for a present map of named currencies it joins with ", " one entry per
    currency, "Name (Symbol)" when the symbol is present and not empty and
    "Name" when the symbol is absent or empty. *)
Theorem getCurrencies_joins_entries (o : list (string * currency)) :
  Forall (λ kv, is_Some (curr_name kv.2)) o →
  getCurrencies None = "Not available"
  ∧ getCurrencies (Some o) =
      String.concat ", "
        (map (λ kv, currency_entry_shown (default "" (curr_name kv.2)) (symbol kv.2)) o)
  ∧ getCurrencies (Some [("USD", Currency (Some "US Dollar") (Some "$"))]) = "US Dollar ($)"
  ∧ getCurrencies (Some [("USD", Currency (Some "US Dollar") None)]) = "US Dollar".
Proof.
  intros Hnamed. split; [reflexivity|]. split; [|split; reflexivity].
  unfold getCurrencies, Js.join, Js.Object_values. f_equal.
  induction Hnamed as [|[code [nm sym]] o [n Hn] _ IH]; [reflexivity|].
  cbn [map snd curr_name symbol] in *. subst nm.
  rewrite currency_entry_named. cbn [default]. f_equal. exact IH.
Qed.

Lemma getCurrencies_joins_entries_witness :
  getCurrencies (Some [("EUR", Currency (Some "Euro") (Some "E")); ("XAF", Currency (Some "Franc") None)])
  = "Euro (E), Franc".
Proof.
  refine (proj1 (proj2 (getCurrencies_joins_entries
    [("EUR", Currency (Some "Euro") (Some "E")); ("XAF", Currency (Some "Franc") None)] _))).
  repeat constructor; simpl; eauto.
Defined.

(** C6 as stated fails: a symbol that is present but empty is falsy, so the
    entry is the bare name, not "Name ()". *)
Lemma getCurrencies_empty_symbol_is_omitted :
  getCurrencies (Some [("USD", Currency (Some "US Dollar") (Some ""))]) = "US Dollar"
  ∧ getCurrencies (Some [("USD", Currency (Some "US Dollar") (Some ""))])
    ≠ String.concat ", " [currency_entry_stated "US Dollar" (Some "")].
Proof. split; [reflexivity | discriminate]. Qed.

(** ** Theme store *)

Section Theme.
Context {number : Type}.
Implicit Types w : @world number.

Lemma setTheme_result w (theme : string) : result (setTheme theme) w = Normal ().
Proof. run. by destruct (String.eqb theme "dark"). Qed.

Lemma setTheme_applied w (theme : string) :
  applied_theme (exec (setTheme theme) w) = Some theme.
Proof. run. destruct (String.eqb theme "dark"); run; apply lookup_insert_eq. Qed.

Lemma setTheme_persisted w (theme : string) :
  persisted_theme (exec (setTheme theme) w) = Some theme.
Proof. run. destruct (String.eqb theme "dark"); run; apply lookup_insert_eq. Qed.

(** [toggleTheme] is [setTheme] of the theme opposite to the applied one. *)
Lemma toggleTheme_unfold w :
  toggleTheme w =
  setTheme (if bool_decide (applied_theme w = Some "dark") then "light" else "dark") w.
Proof. reflexivity. Qed.

Lemma toggleTheme_applied w :
  applied_theme (exec toggleTheme w) =
  Some (if bool_decide (applied_theme w = Some "dark") then "light" else "dark").
Proof. unfold exec. rewrite toggleTheme_unfold. apply setTheme_applied. Qed.

Lemma toggleTheme_persisted w :
  persisted_theme (exec toggleTheme w) =
  Some (if bool_decide (applied_theme w = Some "dark") then "light" else "dark").
Proof. unfold exec. rewrite toggleTheme_unfold. apply setTheme_persisted. Qed.

(** C7: from an applied theme [t] that is "light" or "dark", two calls of
    [toggleTheme] apply [t] again; and after any [setTheme] or [toggleTheme]
    call the value stored under the key "theme" is the applied theme. *)
Theorem toggleTheme_twice_and_persistence w (t : string) :
  t = "light" ∨ t = "dark" →
  applied_theme w = Some t →
  applied_theme (exec toggleTheme (exec toggleTheme w)) = Some t
  ∧ (∀ w1 theme,
       persisted_theme (exec (setTheme theme) w1) = Some theme
       ∧ applied_theme (exec (setTheme theme) w1) = Some theme)
  ∧ (∀ w1 : @world number,
       persisted_theme (exec toggleTheme w1) = applied_theme (exec toggleTheme w1)
       ∧ is_Some (applied_theme (exec toggleTheme w1))).
Proof.
  intros Ht Hw. split; [|split].
  - rewrite !toggleTheme_applied, Hw.
    destruct Ht as [-> | ->]; reflexivity.
  - intros w1 theme. by rewrite setTheme_persisted, setTheme_applied.
  - intros w1. rewrite toggleTheme_persisted, toggleTheme_applied. eauto.
Qed.

(** C9: [toggleTheme] always returns; from the applied value "dark" it
    applies "light", from any other value (no attribute, any other string)
    it applies "dark"; so the applied theme is then "light" or "dark". *)
Theorem toggleTheme_total w :
  result toggleTheme w = Normal ()
  ∧ (applied_theme w = Some "dark" → applied_theme (exec toggleTheme w) = Some "light")
  ∧ (applied_theme w ≠ Some "dark" → applied_theme (exec toggleTheme w) = Some "dark")
  ∧ (applied_theme (exec toggleTheme w) = Some "light"
     ∨ applied_theme (exec toggleTheme w) = Some "dark").
Proof.
  split; [|split; [|split]].
  - unfold result. rewrite toggleTheme_unfold. apply setTheme_result.
  - intros H. rewrite toggleTheme_applied. by rewrite bool_decide_eq_true_2.
  - intros H. rewrite toggleTheme_applied. by rewrite bool_decide_eq_false_2.
  - rewrite toggleTheme_applied. case_bool_decide; eauto.
Qed.

(** On page load the theme applied is the one persisted. *)
Lemma initializeTheme_persisted w :
  persisted_theme (exec initializeTheme w) = applied_theme (exec initializeTheme w)
  ∧ is_Some (applied_theme (exec initializeTheme w)).
Proof.
  unfold initializeTheme, exec.
  cbv beta iota zeta delta [mbind M_bind getItem gets].
  match goal with |- context [setTheme ?t w] =>
    change ((setTheme t w).2) with (exec (setTheme t) w);
    rewrite (setTheme_persisted w t), (setTheme_applied w t) end.
  eauto.
Qed.

End Theme.

Lemma toggleTheme_twice_and_persistence_witness :
  applied_theme (exec toggleTheme (exec toggleTheme (themed_world "light"))) = Some "light".
Proof.
  refine (proj1 (toggleTheme_twice_and_persistence (themed_world "light") "light" _ _)).
  - left; reflexivity.
  - reflexivity.
Defined.

Lemma toggleTheme_total_witness :
  applied_theme (exec toggleTheme (themed_world "sepia")) = Some "dark".
Proof.
  refine (proj1 (proj2 (proj2 (toggleTheme_total (themed_world "sepia")))) _).
  vm_compute. discriminate.
Defined.

(** ** View controller: the three panels *)

(** Membership of "hidden" in a class list after additions and removals. *)
Ltac class_solver :=
  repeat first [rewrite elem_of_difference | rewrite elem_of_union | rewrite elem_of_singleton];
  intuition congruence.

Ltac view_solver :=
  intros [];
  (split; [intros Hv; try reflexivity; exfalso; revert Hv | intros Heq; try discriminate Heq]);
  unfold visible, region_of; run; read_element; class_solver.

Section View.
Context {number : Type}.
Implicit Types w : @world number.

Lemma showLoading_state w : in_state (exec showLoading w) Loading.
Proof. view_solver. Qed.

Lemma showResults_state w : in_state (exec showResults w) Results.
Proof. view_solver. Qed.

Lemma showError_state w (msg : string) : in_state (exec (showError msg) w) Failed.
Proof. view_solver. Qed.

Lemma showError_message w (msg : string) : errorParagraph (exec (showError msg) w) = msg.
Proof. reflexivity. Qed.

(** A page is in at most one state. *)
Lemma in_state_unique w (s1 s2 : ViewState) : in_state w s1 → in_state w s2 → s1 = s2.
Proof. intros H1 H2. apply H2, H1. reflexivity. Qed.

(** C8: each of [showLoading], [showResults] and [showError] returns, and
    afterwards exactly one of the three display regions is visible (its own)
    and the other two are hidden. *)
Theorem view_states_mutually_exclusive w (msg : string) :
  (result showLoading w = Normal ()
   ∧ visible (exec showLoading w) "loadingState"
   ∧ ¬ visible (exec showLoading w) "resultsContainer"
   ∧ ¬ visible (exec showLoading w) "errorMessage")
  ∧ (result showResults w = Normal ()
     ∧ ¬ visible (exec showResults w) "loadingState"
     ∧ visible (exec showResults w) "resultsContainer"
     ∧ ¬ visible (exec showResults w) "errorMessage")
  ∧ (result (showError msg) w = Normal ()
     ∧ ¬ visible (exec (showError msg) w) "loadingState"
     ∧ ¬ visible (exec (showError msg) w) "resultsContainer"
     ∧ visible (exec (showError msg) w) "errorMessage").
Proof.
  pose proof (showLoading_state w) as HL.
  pose proof (showResults_state w) as HR.
  pose proof (showError_state w msg) as HE.
  repeat split; try reflexivity.
  - by apply (HL Loading).
  - by intros ?%(HL Results).
  - by intros ?%(HL Failed).
  - by intros ?%(HR Loading).
  - by apply (HR Results).
  - by intros ?%(HR Failed).
  - by intros ?%(HE Loading).
  - by intros ?%(HE Results).
  - by apply (HE Failed).
Qed.

End View.

(** ** Country data client *)

Section Client.
Context {number : Type}.
Implicit Types w : @world number.
Implicit Types r : @response number.

Lemma fetch_run (url : string) w :
  fetch url w =
  (network w url, set_requests (λ l, (l ++ [url])%list) w).
Proof. unfold fetch. run. by destruct (network w url). Qed.

(** The four ways [fetchCountryData] ends once the request has settled. *)
Lemma fetchCountryData_run (countryName : string) w :
  fetchCountryData countryName w =
  (match network w (api_url countryName) with
   | Throw e => Throw (rethrown e)
   | Normal r =>
       if (status r =? 404)%nat then Throw (rethrown (Error (not_found_message countryName)))
       else if negb (ok r) then Throw (rethrown (Error (api_error_message r)))
       else match json r with
            | Throw e => Throw (rethrown e)
            | Normal (Some (first :: _)) => Normal first
            | Normal _ => Throw (Error no_data_message)
            end
   end, requested countryName w).
Proof.
  unfold fetchCountryData, try_catch, requested, rethrown.
  cbv beta iota zeta delta [mbind M_bind]. rewrite fetch_run.
  destruct (network w (api_url countryName)) as [r|e]; cbn [fst snd].
  - destruct (status r =? 404)%nat.
    { unfold throw. cbn [message]. by destruct (Js.includes _ _). }
    destruct (ok r); cbn [negb].
    2: { unfold throw. cbn [message]. by destruct (Js.includes _ _). }
    destruct (json r) as [[[|first rest]|]|e]; try reflexivity.
    unfold await, throw. by destruct (Js.includes _ _).
  - unfold throw. by destruct (Js.includes _ _).
Qed.

Lemma ok_not_404 r : ok r = true → (status r =? 404)%nat = false.
Proof.
  unfold ok. intros [H1 H2]%andb_prop.
  apply Nat.leb_le in H2. apply Nat.eqb_neq. lia.
Qed.

(** C4: when the lookup is answered with an HTTP-ok response,
    [fetchCountryData] returns the first element of the list of matches,
    and for an empty list or a null body it throws the error "No data
    returned from API" instead of returning a record. *)
Theorem fetchCountryData_first_match (countryName : string) w r :
  network w (api_url countryName) = Normal r →
  ok r = true →
  (∀ first rest, json r = Normal (Some (first :: rest)) →
     result (fetchCountryData countryName) w = Normal first)
  ∧ (json r = Normal (Some []) ∨ json r = Normal None →
     result (fetchCountryData countryName) w = Throw (Error "No data returned from API")).
Proof.
  intros Hnet Hok. unfold result. rewrite fetchCountryData_run, Hnet.
  rewrite (ok_not_404 _ Hok), Hok. cbn [negb fst].
  split.
  - intros first rest ->. reflexivity.
  - intros [-> | ->]; reflexivity.
Qed.

Lemma prefix_app (n s : string) : String.prefix n (n +:+ s) = true.
Proof.
  induction n as [|c n IH]; [by destruct s|].
  change (String c n +:+ s) with (String c (n +:+ s)).
  cbn [String.prefix]. destruct (Ascii.ascii_dec c c); [exact IH | congruence].
Qed.

(** [includes] finds a string between any two others. *)
Lemma includes_infix (a n b : string) : Js.includes n (a +:+ n +:+ b) = true.
Proof.
  induction a as [|c a IH].
  - change ("" +:+ n +:+ b) with (n +:+ b).
    assert (H : ∀ hay, String.prefix n hay = true → Js.includes n hay = true)
      by (intros [] Hp; cbn [Js.includes]; rewrite Hp; reflexivity).
    apply H, prefix_app.
  - change (String c a +:+ n +:+ b) with (String c (a +:+ n +:+ b)).
    cbn [Js.includes]. rewrite IH. apply orb_true_r.
Qed.

Lemma not_found_message_names (countryName : string) :
  Js.includes countryName (not_found_message countryName) = true.
Proof. unfold not_found_message. apply (includes_infix ("Country " +:+ Js.dquote)). Qed.

(** On a 404 the error names the searched term, provided the name-bearing
    message does not itself contain "Failed to fetch", which the handler
    looks for. *)
Lemma fetchCountryData_404 (countryName : string) w r :
  network w (api_url countryName) = Normal r →
  status r = 404%nat →
  Js.includes "Failed to fetch" (not_found_message countryName) = false →
  result (fetchCountryData countryName) w = Throw (Error (not_found_message countryName))
  ∧ Js.includes countryName (not_found_message countryName) = true.
Proof.
  intros Hnet Hst Hinc. split; [|apply not_found_message_names].
  unfold result. rewrite fetchCountryData_run, Hnet, Hst. cbn [Nat.eqb fst].
  unfold rethrown. cbn [message]. by rewrite Hinc.
Qed.

End Client.

Lemma fetchCountryData_first_match_witness :
  result (fetchCountryData "France")
         (sample_world "France" (answer_with (ok_response (Some [france; bare_record]))))
  = Normal france.
Proof.
  refine (proj1 (fetchCountryData_first_match "France"
            (sample_world "France" (answer_with (ok_response (Some [france; bare_record]))))
            (ok_response (Some [france; bare_record])) _ _) france [bare_record] _);
    reflexivity.
Defined.

(** ** Rendering a record *)

Lemma append_all_ne (id id' : string) (bs : list badge) (e : string → element) :
  id ≠ id' → append_all id bs e id' = e id'.
Proof.
  intros Hne. revert e. induction bs as [|b bs IH]; intros e; [reflexivity|].
  cbn [append_all]. rewrite IH. by rewrite fn_lookup_alter_ne.
Qed.

Lemma append_all_children (id : string) (bs : list badge) (e : string → element) :
  children (append_all id bs e id) = (children (e id) ++ bs)%list.
Proof.
  revert e. induction bs as [|b bs IH]; intros e.
  - by rewrite app_nil_r.
  - cbn [append_all]. rewrite IH, fn_lookup_alter.
    cbn [children with_children]. by rewrite <- app_assoc.
Qed.

Ltac distinct_ids := let H := fresh in intros H; discriminate H.

(** Symbolic run of [displayCountryInfo] up to the next [forEach]. *)
Ltac display_step :=
  cbv beta iota zeta delta
    [mbind M_bind mret M_ret throw gets modify prop formatNumber
     set_textContent set_src set_alt clear_innerHTML].

(** Reading an element of the rendered page. *)
Ltac read_rendered :=
  cbn [fst snd byId set_byId];
  repeat first
    [ rewrite fn_lookup_alter_ne by distinct_ids
    | rewrite append_all_ne by distinct_ids ];
  rewrite ?append_all_children;
  rewrite ?fn_lookup_alter;
  cbn [classList textContent src alt value children default Js.template
       with_classList with_textContent with_src with_alt with_children].

Section Rendering.
Context {number : Type}.
Variable toLocaleString : number → string.
Variable number_to_string : number → string.
Implicit Types w : @world number.
Implicit Types c : @country number.

Abbreviation display := (displayCountryInfo toLocaleString number_to_string).

Lemma forEach_appendChild (id : string) (l : list string) w :
  forEach l (λ x, appendChild id (createBadge x)) w =
  (Normal (), set_byId (append_all id (map createBadge l)) w).
Proof.
  revert w. induction l as [|x l IH]; intros w.
  - by destruct w.
  - cbn [forEach]. cbv beta iota zeta delta [mbind M_bind appendChild modify].
    rewrite IH. by destruct w.
Qed.

Lemma present_Some {A : Type} (o : option A) : present o = true → ∃ a, o = Some a.
Proof. destruct o; [eauto | discriminate]. Qed.

(** An absent property that the script reads through raises. *)
Lemma displayCountryInfo_raises c w :
  raises_nothing c = false → ∃ key, result (display c) w = Throw (TypeError_undefined key).
Proof.
  unfold raises_nothing, result, displayCountryInfo. intros H.
  destruct (name c) as [nm|]; [|eexists; reflexivity].
  destruct (flags c) as [fl|]; [|eexists; reflexivity].
  destruct (population c) as [p|]; [|eexists; reflexivity].
  destruct (area c) as [a|]; [|eexists; reflexivity].
  destruct (latlng c) as [ll|];
    [|display_step; rewrite !forEach_appendChild; eexists; reflexivity].
  destruct (timezones c) as [tz|];
    [|display_step; rewrite !forEach_appendChild; eexists; reflexivity].
  destruct (idd c) as [i|];
    [|display_step; rewrite !forEach_appendChild; eexists; reflexivity].
  discriminate H.
Qed.

(** What the page shows once every property read through is present. *)
Section Rendered.
Variables (c : @country number) (w : @world number).
Variables (nm : country_name) (fl : country_flags) (p a : number).
Variables (ll : list number) (tz : list string) (i : country_idd).
Hypothesis Hname : name c = Some nm.
Hypothesis Hflags : flags c = Some fl.
Hypothesis Hpopulation : population c = Some p.
Hypothesis Harea : area c = Some a.
Hypothesis Hlatlng : latlng c = Some ll.
Hypothesis Htimezones : timezones c = Some tz.
Hypothesis Hidd : idd c = Some i.

Ltac rendered :=
  unfold exec, result, displayCountryInfo;
  rewrite Hname, Hflags, Hpopulation, Harea, Hlatlng, Htimezones, Hidd;
  display_step; rewrite !forEach_appendChild; read_rendered; try reflexivity.

Lemma rendered_result : result (display c) w = Normal ().
Proof. rendered. Qed.

Lemma rendered_flag :
  src (byId (exec (display c) w) "countryFlag") = Js.template (svg fl)
  ∧ alt (byId (exec (display c) w) "countryFlag") = "Flag of " +:+ Js.template (common nm).
Proof. split; rendered. Qed.

Lemma rendered_names :
  textContent (byId (exec (display c) w) "countryName") = default "" (common nm)
  ∧ textContent (byId (exec (display c) w) "officialName") = default "" (official nm).
Proof. split; rendered. Qed.

Lemma rendered_capital :
  textContent (byId (exec (display c) w) "capital") =
  default "" (first_or_not_available (capital c)).
Proof. rendered. Qed.

Lemma rendered_region :
  textContent (byId (exec (display c) w) "region") = region_text c.
Proof. rendered. Qed.

Lemma rendered_statistics :
  textContent (byId (exec (display c) w) "population") = toLocaleString p
  ∧ textContent (byId (exec (display c) w) "area") = toLocaleString a +:+ km2
  ∧ textContent (byId (exec (display c) w) "currencies") = getCurrencies (currencies c).
Proof. repeat split; rendered. Qed.

Lemma rendered_languages :
  children (byId (exec (display c) w) "languages") =
  map createBadge (getLanguages (languages c)).
Proof. rendered. Qed.

Lemma rendered_domains :
  children (byId (exec (display c) w) "domains") =
  map createBadge (default ["Not available"] (tld c)).
Proof. rendered. Qed.

Lemma rendered_map :
  src (byId (exec (display c) w) "countryMap") =
  map_url number_to_string (ll !! 0%nat) (ll !! 1%nat).
Proof. rendered. Qed.

Lemma rendered_timezones :
  textContent (byId (exec (display c) w) "timezones") = Js.join ", " (map Some tz).
Proof. rendered. Qed.

Lemma rendered_continent :
  textContent (byId (exec (display c) w) "continent") =
  default "" (first_or_not_available (continents c)).
Proof. rendered. Qed.

Lemma rendered_callingCode :
  textContent (byId (exec (display c) w) "callingCode") = calling_code i.
Proof. rendered. Qed.

Lemma rendered_borders :
  textContent (byId (exec (display c) w) "borders") = borders_text c.
Proof. rendered. Qed.

Lemma rendered_flags_yes_no :
  textContent (byId (exec (display c) w) "independent") = yes_no (independent c)
  ∧ textContent (byId (exec (display c) w) "unMember") = yes_no (unMember c).
Proof. split; rendered. Qed.

End Rendered.

(** [displayCountryInfo] returns exactly when nothing it reads through is
    absent. *)
Lemma displayCountryInfo_returns_iff c w :
  result (display c) w = Normal () ↔ raises_nothing c = true.
Proof.
  split.
  - intros Hr. destruct (raises_nothing c) eqn:E; [reflexivity|].
    destruct (displayCountryInfo_raises c w E) as [key Hk]. congruence.
  - unfold raises_nothing. rewrite !andb_true_iff.
    intros [[[[[[[nm Hn]%present_Some [fl Hf]%present_Some] [p Hp]%present_Some]
      [a Ha]%present_Some] [ll Hl]%present_Some] [tz Ht]%present_Some] [i Hi]%present_Some].
    eapply rendered_result; eassumption.
Qed.

Lemma raises_nothing_fields c :
  raises_nothing c = true →
  ∃ nm fl p a ll tz i,
    name c = Some nm ∧ flags c = Some fl ∧ population c = Some p ∧ area c = Some a
    ∧ latlng c = Some ll ∧ timezones c = Some tz ∧ idd c = Some i.
Proof.
  unfold raises_nothing. rewrite !andb_true_iff.
  intros [[[[[[[nm Hn]%present_Some [fl Hf]%present_Some] [p Hp]%present_Some]
    [a Ha]%present_Some] [ll Hl]%present_Some] [tz Ht]%present_Some] [i Hi]%present_Some].
  by exists nm, fl, p, a, ll, tz, i.
Qed.

Lemma stated_precondition_raises_nothing c :
  stated_precondition c = true → raises_nothing c = true.
Proof.
  unfold stated_precondition, raises_nothing. rewrite !andb_true_iff.
  intros [[[[[[[Hn Hf] _] Hp] Ha] Hl] Ht] Hi].
  destruct (name c), (flags c), (latlng c); try discriminate. by rewrite Hp, Ha, Ht, Hi.
Qed.

Lemma append_empty_r (s : string) : s +:+ "" = s.
Proof.
  induction s as [|ch s IH]; [reflexivity|].
  change (String ch s +:+ "") with (String ch (s +:+ "")). by rewrite IH.
Qed.

(** C3, corrected: when [displayCountryInfo] completes, the borders field
    is the default "None (island/isolated)" for a record with no list of
    borders, and for a record with a list, the empty one included, it is
    the length of the list followed by " countries"; so the specified
    behaviour is met except on the empty list. *)
Theorem borders_field_default_only_when_absent c w :
  result (display c) w = Normal () →
  (borders c = None →
     textContent (byId (exec (display c) w) "borders") = "None (island/isolated)")
  ∧ (∀ l, borders c = Some l →
       textContent (byId (exec (display c) w) "borders")
       = Js.nat_to_string (length l) +:+ " countries")
  ∧ (borders c ≠ Some [] →
       textContent (byId (exec (display c) w) "borders") = borders_stated (borders c)).
Proof.
  intros Hr%displayCountryInfo_returns_iff.
  destruct (raises_nothing_fields c Hr) as (nm & fl & p & a & ll & tz & i & Hn & Hf & Hp & Ha & Hl & Ht & Hi).
  rewrite (rendered_borders c w nm fl p a ll tz i Hn Hf Hp Ha Hl Ht Hi).
  unfold borders_text, borders_stated. repeat split.
  - by intros ->.
  - by intros l ->.
  - by destruct (borders c) as [[|b l]|].
Qed.

(** C10, corrected: [displayCountryInfo] completes exactly when name, flags,
    population, area, latlng, timezones and idd are present, which the
    stated precondition ensures; under the stated precondition the names
    and the flag shown are the ones read, and an absent capital, subregion,
    currencies, languages, tld, continents, idd.suffixes or borders is
    replaced by its default, while a capital, continents or suffixes list
    that is present shows its first element, which is [undefined] when the
    list is empty. *)
Theorem displayCountryInfo_total_under_precondition c w :
  stated_precondition c = true →
  (∀ c' w', result (display c') w' = Normal () ↔ raises_nothing c' = true)
  ∧ result (display c) w = Normal ()
  ∧ name c ≫= common = Some (textContent (byId (exec (display c) w) "countryName"))
  ∧ name c ≫= official = Some (textContent (byId (exec (display c) w) "officialName"))
  ∧ flags c ≫= svg = Some (src (byId (exec (display c) w) "countryFlag"))
  ∧ (capital c = None →
       textContent (byId (exec (display c) w) "capital") = "Not available")
  ∧ (∀ l, capital c = Some l →
       textContent (byId (exec (display c) w) "capital") = default "" (l !! 0%nat))
  ∧ (subregion c = None →
       region c = Some (textContent (byId (exec (display c) w) "region")))
  ∧ (currencies c = None →
       textContent (byId (exec (display c) w) "currencies") = "Not available")
  ∧ (languages c = None →
       children (byId (exec (display c) w) "languages") = [createBadge "Not available"])
  ∧ (tld c = None →
       children (byId (exec (display c) w) "domains") = [createBadge "Not available"])
  ∧ (continents c = None →
       textContent (byId (exec (display c) w) "continent") = "Not available")
  ∧ (∀ l, continents c = Some l →
       textContent (byId (exec (display c) w) "continent") = default "" (l !! 0%nat))
  ∧ (∀ i, idd c = Some i → suffixes i = None →
       textContent (byId (exec (display c) w) "callingCode")
       = if Js.truthy (root i) then Js.template (root i) else "Not available")
  ∧ (∀ i l, idd c = Some i → suffixes i = Some l →
       textContent (byId (exec (display c) w) "callingCode")
       = if Js.truthy (root i) then Js.template (root i) +:+ Js.template (l !! 0%nat)
         else "Not available")
  ∧ (borders c = None →
       textContent (byId (exec (display c) w) "borders") = "None (island/isolated)").
Proof.
  intros Hpre. split; [apply displayCountryInfo_returns_iff|].
  pose proof (stated_precondition_raises_nothing c Hpre) as Hr.
  destruct (raises_nothing_fields c Hr) as (nm & fl & p & a & ll & tz & i & Hn & Hf & Hp & Ha & Hl & Ht & Hi).
  destruct (rendered_names c w nm fl p a ll tz i Hn Hf Hp Ha Hl Ht Hi) as [Hcn Hon].
  destruct (rendered_flag c w nm fl p a ll tz i Hn Hf Hp Ha Hl Ht Hi) as [Hsrc _].
  destruct (rendered_statistics c w nm fl p a ll tz i Hn Hf Hp Ha Hl Ht Hi) as (_ & _ & Hcur).
  rewrite Hcn, Hon, Hsrc, Hcur.
  rewrite (rendered_capital c w nm fl p a ll tz i Hn Hf Hp Ha Hl Ht Hi).
  rewrite (rendered_region c w nm fl p a ll tz i Hn Hf Hp Ha Hl Ht Hi).
  rewrite (rendered_languages c w nm fl p a ll tz i Hn Hf Hp Ha Hl Ht Hi).
  rewrite (rendered_domains c w nm fl p a ll tz i Hn Hf Hp Ha Hl Ht Hi).
  rewrite (rendered_continent c w nm fl p a ll tz i Hn Hf Hp Ha Hl Ht Hi).
  rewrite (rendered_callingCode c w nm fl p a ll tz i Hn Hf Hp Ha Hl Ht Hi).
  rewrite (rendered_borders c w nm fl p a ll tz i Hn Hf Hp Ha Hl Ht Hi).
  split; [by apply displayCountryInfo_returns_iff|].
  unfold stated_precondition in Hpre. rewrite !andb_true_iff in Hpre.
  destruct Hpre as [[[[[[[Hnm Hfl] Hreg] _] _] _] _] _].
  rewrite Hn in Hnm. rewrite Hf in Hfl. rewrite Hn, Hf. cbn [mbind option_bind].
  apply andb_prop in Hnm as [[cn Hc]%present_Some [on Ho]%present_Some].
  apply present_Some in Hfl as [url Hu]. apply present_Some in Hreg as [r Hrg].
  rewrite Hc, Ho, Hu. cbn [default Js.template].
  repeat split.
  - by intros ->.
  - by intros l ->.
  - intros Hsub. unfold region_text. rewrite Hsub, Hrg. cbn [Js.truthy Js.template].
    by rewrite append_empty_r.
  - by intros ->.
  - by intros ->.
  - by intros ->.
  - by intros ->.
  - by intros l ->.
  - intros i' Hi' Hsuf. assert (i' = i) as -> by congruence.
    unfold calling_code. rewrite Hsuf. destruct (Js.truthy (root i)); [|reflexivity].
    cbn [Js.template]. by rewrite append_empty_r.
  - intros i' l Hi' Hsuf. assert (i' = i) as -> by congruence.
    unfold calling_code. by rewrite Hsuf.
  - unfold borders_text. by intros ->.
Qed.

End Rendering.

Lemma borders_field_default_only_when_absent_witness :
  textContent (byId (exec (displayCountryInfo Z_toLocaleString Z_to_string france)
                          (sample_world "France" (answer_with not_found_response)))
                    "borders")
  = "8 countries".
Proof.
  refine (proj1 (proj2 (borders_field_default_only_when_absent Z_toLocaleString Z_to_string
            france (sample_world "France" (answer_with not_found_response)) _))
            ["AND"; "BEL"; "DEU"; "ITA"; "LUX"; "MCO"; "ESP"; "CHE"] _);
    reflexivity.
Defined.

(** C3 as stated fails: a present but empty list of borders is truthy, so
    the field reads "0 countries", not the default. *)
Lemma empty_borders_show_zero_countries :
  textContent (byId (exec (displayCountryInfo Z_toLocaleString Z_to_string island_with_empty_borders)
                          (sample_world "Nauru" (answer_with not_found_response)))
                    "borders")
  = "0 countries"
  ∧ borders_stated (borders island_with_empty_borders) = "None (island/isolated)".
Proof. split; reflexivity. Qed.

Lemma displayCountryInfo_total_under_precondition_witness :
  result (displayCountryInfo Z_toLocaleString Z_to_string bare_record)
         (sample_world "Nauru" (answer_with not_found_response))
  = Normal ()
  ∧ textContent (byId (exec (displayCountryInfo Z_toLocaleString Z_to_string bare_record)
                            (sample_world "Nauru" (answer_with not_found_response)))
                      "capital")
    = "Not available".
Proof.
  pose proof (displayCountryInfo_total_under_precondition Z_toLocaleString Z_to_string
                bare_record (sample_world "Nauru" (answer_with not_found_response))
                eq_refl) as (_ & Hres & _ & _ & _ & Hcap & _).
  split; [exact Hres | apply Hcap; reflexivity].
Defined.

(** C10 as stated fails, whichever way an access is said to succeed.  The
    stated precondition is not necessary for the absence of exceptions: a
    record without region is rendered without any, its region line reading
    "undefined - Western Europe".  Nor does it make every indexing find an
    element: a record that meets it with an empty capital list has no first
    capital, and the field is left empty instead of showing a default. *)
Lemma displayCountryInfo_total_without_region :
  (stated_precondition france_without_region = false
   ∧ result (displayCountryInfo Z_toLocaleString Z_to_string france_without_region)
            (sample_world "France" (answer_with not_found_response))
     = Normal ()
   ∧ textContent (byId (exec (displayCountryInfo Z_toLocaleString Z_to_string
                                                 france_without_region)
                             (sample_world "France" (answer_with not_found_response)))
                       "region")
     = "undefined - Western Europe")
  ∧ (stated_precondition france_with_empty_capital = true
     ∧ capital france_with_empty_capital ≫= (λ l, l !! 0%nat) = None
     ∧ textContent (byId (exec (displayCountryInfo Z_toLocaleString Z_to_string
                                                   france_with_empty_capital)
                               (sample_world "France" (answer_with not_found_response)))
                         "capital")
       = "").
Proof. repeat split; reflexivity. Qed.

(** ** The search *)

(** A string trims to the empty string exactly when it is made of white
    space only. *)
Lemma trimEnd_blank (s : string) :
  Js.trimEnd s = "" ↔ Forall (λ ch, Js.is_white_space ch = true) (list_ascii_of_string s).
Proof.
  induction s as [|ch s IH]; cbn [Js.trimEnd list_ascii_of_string].
  - split; [constructor | reflexivity].
  - destruct (Js.trimEnd s) as [|ch' t] eqn:E.
    + destruct (Js.is_white_space ch) eqn:Hws.
      * split; [intros _; constructor; [assumption | by apply IH] | reflexivity].
      * split; [discriminate | intros H; inversion H; congruence].
    + split; [discriminate|]. intros H. inversion H as [|? ? _ Hs]; subst.
      apply IH in Hs. discriminate Hs.
Qed.

Lemma trim_blank (s : string) :
  Js.trim s = "" ↔ Forall (λ ch, Js.is_white_space ch = true) (list_ascii_of_string s).
Proof.
  unfold Js.trim. induction s as [|ch s IH]; cbn [Js.trimStart list_ascii_of_string].
  - apply trimEnd_blank.
  - destruct (Js.is_white_space ch) eqn:Hws.
    + rewrite IH. split; [by constructor | by inversion 1].
    + rewrite trimEnd_blank. cbn [list_ascii_of_string]. reflexivity.
Qed.

Section Search.
Context {number : Type}.
Variable toLocaleString : number → string.
Variable number_to_string : number → string.
Implicit Types w : @world number.

Abbreviation search := (searchCountry toLocaleString number_to_string).
Abbreviation typed_name w := (Js.trim (value (byId w "countryInput"))).

(** With nothing typed, the search is the validation error alone. *)
Lemma searchCountry_blank w :
  typed_name w = "" → search w = showError "Please enter a country name" w.
Proof.
  intros H. unfold searchCountry.
  cbv beta iota zeta delta [mbind M_bind get_value gets]. by rewrite H.
Qed.

(** With a name typed, the search is the loading panel, the lookup, and
    then either the rendering and the results panel, or the error panel
    with the message of what was thrown. *)
Lemma searchCountry_named w :
  typed_name w ≠ "" →
  search w =
  match fetchCountryData (typed_name w) (exec showLoading w) with
  | (Normal countryData, w1) =>
      match displayCountryInfo toLocaleString number_to_string countryData w1 with
      | (Normal _, w2) => showResults w2
      | (Throw e, w2) => showError (message e) w2
      end
  | (Throw e, w1) => showError (message e) w1
  end.
Proof.
  intros H. unfold searchCountry.
  cbv beta iota zeta delta [mbind M_bind get_value gets try_catch].
  destruct (String.eqb_spec (typed_name w) "") as [Heq|_]; [contradiction|].
  unfold exec. destruct (showLoading w) as [[[]|e] w0] eqn:E.
  - cbn [snd]. destruct (fetchCountryData _ w0) as [[cd|e] w1]; [|reflexivity].
    destruct (displayCountryInfo _ _ cd w1) as [[[]|e] w2]; [|reflexivity].
    reflexivity.
  - discriminate E.
Qed.

(** C2: when the typed text trims to the empty string (it is empty or
    white space only), [searchCountry] ends in the error state with the
    message "Please enter a country name"; its run is that of [showError]
    alone, so [fetchCountryData] is not called and no request is sent. *)
Theorem searchCountry_blank_input w :
  typed_name w = "" →
  result search w = Normal ()
  ∧ in_state (exec search w) Failed
  ∧ errorParagraph (exec search w) = "Please enter a country name"
  ∧ search w = showError "Please enter a country name" w
  ∧ requests (exec search w) = requests w.
Proof.
  intros H. unfold result, exec. rewrite (searchCountry_blank w H).
  split; [reflexivity|]. split; [apply showError_state|]. repeat split; reflexivity.
Qed.

(** A 404 for a name whose not-found message does not contain "Failed to
    fetch": the search ends in the error state, showing the message that
    names the searched term. *)
Lemma searchCountry_not_found w (r : @response number) :
  typed_name w ≠ "" →
  network w (api_url (typed_name w)) = Normal r →
  status r = 404%nat →
  Js.includes "Failed to fetch" (not_found_message (typed_name w)) = false →
  in_state (exec search w) Failed
  ∧ errorParagraph (exec search w) = not_found_message (typed_name w)
  ∧ Js.includes (typed_name w) (errorParagraph (exec search w)) = true.
Proof.
  intros Hname Hnet Hst Hinc. unfold exec at 1 2 3.
  rewrite (searchCountry_named w Hname), fetchCountryData_run.
  change (network (exec showLoading w)) with (network w).
  rewrite Hnet, Hst. cbn [Nat.eqb]. unfold rethrown. cbn [message]. rewrite Hinc.
  split; [apply showError_state|]. split; [reflexivity|].
  exact (not_found_message_names (typed_name w)).
Qed.

End Search.

Lemma searchCountry_blank_input_witness :
  errorParagraph (exec (searchCountry Z_toLocaleString Z_to_string)
                       (sample_world "   " (answer_with not_found_response)))
  = "Please enter a country name".
Proof.
  refine (proj1 (proj2 (proj2 (searchCountry_blank_input Z_toLocaleString Z_to_string
            (sample_world "   " (answer_with not_found_response)) _)))).
  reflexivity.
Defined.

(** C5 at the name "Failed to fetch": the lookup is answered 404, the
    not-found error naming the term is thrown, and the handler of
    [fetchCountryData], which looks for "Failed to fetch" in the message of
    whatever it catches, replaces it by the network error; the search shows
    that message, which does not contain the searched name. *)
Theorem fetchCountryData_404_masked :
  status not_found_response = 404%nat
  ∧ result (fetchCountryData "Failed to fetch")
           (sample_world "Failed to fetch" (answer_with not_found_response))
    = Throw (Error network_error_message)
  ∧ Js.includes "Failed to fetch" network_error_message = false
  ∧ in_state (exec (searchCountry Z_toLocaleString Z_to_string)
                   (sample_world "Failed to fetch" (answer_with not_found_response)))
             Failed
  ∧ errorParagraph (exec (searchCountry Z_toLocaleString Z_to_string)
                         (sample_world "Failed to fetch" (answer_with not_found_response)))
    = network_error_message.
Proof.
  split; [reflexivity|]. split; [reflexivity|]. split; [reflexivity|].
  unfold exec.
  rewrite (searchCountry_named Z_toLocaleString Z_to_string) by discriminate.
  rewrite fetchCountryData_run.
  split; [apply showError_state | reflexivity].
Qed.

(** [formatNumber(1234567)] on the integer host. *)
Example formatNumber_groups_thousands :
  result (formatNumber Z_toLocaleString (Some 1234567%Z))
         (sample_world "" (answer_with not_found_response))
  = Normal "1,234,567".
Proof. reflexivity. Qed.

(** ** What a piece of script leaves untouched *)

(** An update of one element through a function that keeps the part [p]
    of every element keeps [p] of every element of the page. *)
Lemma alter_keeps_part {B : Type} (p : element → B) (h : element → element)
    (id id' : string) (g : string → element) :
  (∀ e, p (h e) = p e) → p (alter h id g id') = p (g id').
Proof.
  intros Hp. unfold alter, fn_alter. destruct (decide (id = id')) as [->|]; [apply Hp | reflexivity].
Qed.

Lemma append_all_keeps_part {B : Type} (p : element → B) (id id' : string)
    (bs : list badge) (g : string → element) :
  (∀ e f, p (with_children f e) = p e) → p (append_all id bs g id') = p (g id').
Proof.
  intros Hp. revert g. induction bs as [|b bs IH]; intros g; [reflexivity|].
  cbn [append_all]. rewrite IH. apply alter_keeps_part. intros e. apply Hp.
Qed.

Section Frames.
Context {number : Type}.
Implicit Types w : @world number.

Lemma keeps_ret {A B : Type} (obs : @world number → B) (a : A) : keeps obs (mret a).
Proof. intros w. reflexivity. Qed.

Lemma keeps_throw {A B : Type} (obs : @world number → B) (e : error) :
  keeps obs (throw e : M A).
Proof. intros w. reflexivity. Qed.

Lemma keeps_gets {A B : Type} (obs : @world number → B) (f : @world number → A) :
  keeps obs (gets f).
Proof. intros w. reflexivity. Qed.

Lemma keeps_prop {A B : Type} (obs : @world number → B) (o : option A) (key : string) :
  keeps obs (prop o key).
Proof. intros w. by destruct o. Qed.

Lemma keeps_await {A B : Type} (obs : @world number → B) (p : outcome A) :
  keeps obs (await p).
Proof. intros w. by destruct p. Qed.

Lemma keeps_modify {B : Type} (obs : @world number → B) (f : @world number → @world number) :
  (∀ w, obs (f w) = obs w) → keeps obs (modify f).
Proof. intros H w. apply H. Qed.

Lemma keeps_bind {A A' B : Type} (obs : @world number → B) (m : M A) (k : A → M A') :
  keeps obs m → (∀ a, keeps obs (k a)) → keeps obs (m ≫= k).
Proof.
  intros Hm Hk w. unfold mbind, M_bind. specialize (Hm w).
  destruct (m w) as [[a|e] w1]; cbn [snd] in *; [|exact Hm].
  rewrite (Hk a w1). exact Hm.
Qed.

Lemma keeps_try_catch {A B : Type} (obs : @world number → B) (m : M A) (h : error → M A) :
  keeps obs m → (∀ e, keeps obs (h e)) → keeps obs (try_catch m h).
Proof.
  intros Hm Hh w. unfold try_catch. specialize (Hm w).
  destruct (m w) as [[a|e] w1]; cbn [snd] in *; [exact Hm|].
  rewrite (Hh e w1). exact Hm.
Qed.

Lemma keeps_forEach {A B : Type} (obs : @world number → B) (l : list A) (f : A → M unit) :
  (∀ x, keeps obs (f x)) → keeps obs (forEach l f).
Proof.
  intros Hf. induction l as [|x l IH]; [apply keeps_ret|].
  cbn [forEach]. apply keeps_bind; [apply Hf | intros _; exact IH].
Qed.

End Frames.

(** Splitting a script into its statements, each of which keeps the
    observation at hand. *)
Ltac frame_step side :=
  first
    [ apply keeps_bind; [|intros ?]
    | apply keeps_try_catch; [|intros ?]
    | apply keeps_forEach; intros ?
    | apply keeps_ret
    | apply keeps_throw
    | apply keeps_gets
    | apply keeps_prop
    | apply keeps_await
    | apply keeps_modify; intros ?; side
    | match goal with
      | |- keeps _ (if ?b then _ else _) => destruct b
      | |- keeps _ (match ?x with _ => _ end) => destruct x
      end ].

Ltac frame side := repeat frame_step side.

(** The side condition of an update of the page: the observation is a
    field other than the elements, is a part of an element that the update
    keeps, or is at another element. *)
Ltac kept_part :=
  cbn [byId set_byId documentElement localStorage requests errorParagraph scrolledTo
       prefersDark network set_documentElement set_localStorage set_requests
       set_errorParagraph set_scrolledTo];
  first
    [ reflexivity
    | apply (alter_keeps_part classList); intros ?; reflexivity
    | apply (alter_keeps_part value); intros ?; reflexivity
    | apply (alter_keeps_part textContent); intros ?; reflexivity
    | apply (alter_keeps_part children); intros ?; reflexivity
    | apply (alter_keeps_part src); intros ?; reflexivity
    | rewrite fn_lookup_alter_ne by (first [assumption | congruence | distinct_ids]);
      reflexivity ].

Ltac unfold_script :=
  unfold session, perform, dispatch, onKeypress, searchCountry, fetchCountryData, fetch,
    displayCountryInfo, formatNumber, showLoading, showResults, showError,
    initializeTheme, toggleTheme, setTheme,
    classList_add, classList_remove, set_textContent, set_src, set_alt, clear_innerHTML,
    appendChild, get_value, scrollIntoView, getAttribute, setAttribute, getItem, setItem;
  cbv zeta.

Section FrameTheorems.
Context {number : Type}.
Variable toLocaleString : number → string.
Variable number_to_string : number → string.
Implicit Types w : @world number.
Implicit Types c : @country number.

Abbreviation display' := (displayCountryInfo toLocaleString number_to_string).
Abbreviation search' := (searchCountry toLocaleString number_to_string).

Lemma displayCountryInfo_keeps_classList c (id : string) :
  keeps (λ w, classList (byId w id)) (display' c).
Proof. unfold_script; frame kept_part. Qed.

Lemma displayCountryInfo_keeps_requests c : keeps requests (display' c).
Proof. unfold_script; frame kept_part. Qed.

Lemma displayCountryInfo_keeps_scrolledTo c : keeps scrolledTo (display' c).
Proof. unfold_script; frame kept_part. Qed.

(** X1: [displayCountryInfo] writes texts, image sources and badges only:
    whether it returns or raises half way, it leaves the class list of
    every element (so which regions are visible), the input field, the
    theme, the storage, the request log and the error paragraph as they
    were. *)
Theorem displayCountryInfo_writes_content_only c w :
  (∀ id, classList (byId (exec (display' c) w) id) = classList (byId w id))
  ∧ (∀ id, value (byId (exec (display' c) w) id) = value (byId w id))
  ∧ (∀ s, in_state (exec (display' c) w) s ↔ in_state w s)
  ∧ documentElement (exec (display' c) w) = documentElement w
  ∧ localStorage (exec (display' c) w) = localStorage w
  ∧ requests (exec (display' c) w) = requests w
  ∧ errorParagraph (exec (display' c) w) = errorParagraph w
  ∧ scrolledTo (exec (display' c) w) = scrolledTo w.
Proof.
  pose proof (displayCountryInfo_keeps_classList c) as Hcl.
  split; [intros id; apply (Hcl id)|].
  split; [intros id; revert w;
          change (keeps (λ w, value (byId w id)) (display' c));
          unfold_script; frame kept_part|].
  split.
  { intros s. unfold in_state, visible. by setoid_rewrite (Hcl _ w). }
  repeat split; revert w.
  - change (keeps documentElement (display' c)). unfold_script; frame kept_part.
  - change (keeps localStorage (display' c)). unfold_script; frame kept_part.
  - apply displayCountryInfo_keeps_requests.
  - change (keeps errorParagraph (display' c)). unfold_script; frame kept_part.
  - apply displayCountryInfo_keeps_scrolledTo.
Qed.

End FrameTheorems.

(** ** Theme store: icons, reloads and what a theme change leaves alone *)

Section ThemeStore.
Context {number : Type}.
Implicit Types w : @world number.

Lemma setTheme_icons w (theme : string) : icons_match (exec (setTheme theme) w).
Proof.
  unfold icons_match. rewrite setTheme_applied. unfold visible.
  destruct (String.eqb_spec theme "dark") as [->|Hne].
  - run. rewrite String.eqb_refl. run. split; split; read_element.
    + reflexivity.
    + intros _. class_solver.
    + intros H. exfalso. revert H. class_solver.
    + intros H. by destruct H.
  - run. destruct (String.eqb_spec theme "dark") as [|_]; [contradiction|].
    run. split; split; read_element.
    + intros H. exfalso. revert H. class_solver.
    + intros [= Heq]. contradiction.
    + intros _ [= Heq]. contradiction.
    + intros _. class_solver.
Qed.

Lemma setTheme_consistent w (theme : string) : theme_consistent (exec (setTheme theme) w).
Proof.
  split; [|split].
  - by rewrite setTheme_persisted, setTheme_applied.
  - rewrite setTheme_applied. eauto.
  - apply setTheme_icons.
Qed.

Lemma initializeTheme_unfold w :
  initializeTheme w =
  setTheme (if Js.truthy (persisted_theme w) then Js.template (persisted_theme w)
            else if prefersDark w then "dark" else "light") w.
Proof. reflexivity. Qed.

(** X2: after [setTheme], [toggleTheme] or [initializeTheme], whatever the
    theme string, exactly one of the two icons is visible: the moon when the
    applied theme is "dark", the sun for any other theme. *)
Theorem theme_icon_follows_theme w (theme : string) :
  icons_match (exec (setTheme theme) w)
  ∧ icons_match (exec toggleTheme w)
  ∧ icons_match (exec initializeTheme w)
  ∧ (∀ w' : @world number, icons_match w' → (visible w' "moonIcon" ↔ ¬ visible w' "sunIcon")).
Proof.
  split; [apply setTheme_icons|]. split; [|split].
  - unfold exec. rewrite toggleTheme_unfold. apply setTheme_icons.
  - unfold exec. rewrite initializeTheme_unfold. apply setTheme_icons.
  - intros w' [Hm Hs]. rewrite Hm, Hs.
    destruct (decide (applied_theme w' = Some "dark")); tauto.
Qed.


(** X4: a theme that was set, or toggled to, is applied again by
    [initializeTheme] on any later load that finds the same storage,
    whatever the system preference then is, provided the theme is not the
    empty string. *)
Theorem theme_survives_reload w (reloaded : @world number) (theme : string) :
  theme ≠ "" →
  (localStorage reloaded = localStorage (exec (setTheme theme) w) →
     applied_theme (exec initializeTheme reloaded) = Some theme)
  ∧ (localStorage reloaded = localStorage (exec toggleTheme w) →
     applied_theme (exec initializeTheme reloaded) = applied_theme (exec toggleTheme w)).
Proof.
  intros Hne.
  assert (H : ∀ t, t ≠ "" → persisted_theme reloaded = Some t →
                   applied_theme (exec initializeTheme reloaded) = Some t).
  { intros t Ht Hp. unfold exec. rewrite initializeTheme_unfold, Hp.
    rewrite truthy_Some, bool_decide_eq_true_2 by done. apply setTheme_applied. }
  split.
  - intros Hl. apply H; [done|]. unfold persisted_theme. rewrite Hl. apply setTheme_persisted.
  - intros Hl. rewrite toggleTheme_applied. apply H.
    + by case_bool_decide.
    + unfold persisted_theme. rewrite Hl. apply toggleTheme_persisted.
Qed.

(** X5: with no stored theme, or with the empty string stored, the first
    load applies "dark" if the system prefers dark and "light" otherwise,
    and stores that choice. *)
Theorem first_load_follows_system_preference w :
  persisted_theme w = None ∨ persisted_theme w = Some "" →
  applied_theme (exec initializeTheme w) = Some (if prefersDark w then "dark" else "light")
  ∧ persisted_theme (exec initializeTheme w) = Some (if prefersDark w then "dark" else "light").
Proof.
  intros H. unfold exec. rewrite initializeTheme_unfold.
  assert (Js.truthy (persisted_theme w) = false) as -> by (destruct H as [-> | ->]; reflexivity).
  split; [apply setTheme_applied | apply setTheme_persisted].
Qed.

End ThemeStore.

Lemma theme_survives_reload_witness :
  applied_theme (exec initializeTheme
                      (World ∅ (λ _, blank_element) "" {["theme" := "dark"]} false
                             (λ _, Throw (Error "Failed to fetch")) [] None : @world Z))
  = Some "dark".
Proof.
  refine (proj1 (theme_survives_reload (themed_world "light") _ "dark" _) _).
  - discriminate.
  - reflexivity.
Defined.

Lemma first_load_follows_system_preference_witness :
  applied_theme (exec initializeTheme (themed_world "sepia")) = Some "light".
Proof.
  refine (proj1 (first_load_follows_system_preference (themed_world "sepia") _)).
  left; reflexivity.
Defined.

(** ** Country data client: requests and failures *)

Section ClientFailures.
Context {number : Type}.
Implicit Types w : @world number.
Implicit Types r : @response number.


Lemma network_error_message_clean :
  Js.includes "Failed to fetch" network_error_message = false.
Proof. reflexivity. Qed.

Lemma rethrown_clean (e : error) :
  Js.includes "Failed to fetch" (message (rethrown e)) = false.
Proof.
  unfold rethrown. destruct (Js.includes "Failed to fetch" (message e)) eqn:E.
  - exact network_error_message_clean.
  - exact E.
Qed.


(** X7: a response whose status is neither 404 nor in 200-299 makes
    [fetchCountryData] throw "API Error: <status> - <status text>" without
    reading the body, provided that message does not contain "Failed to
    fetch". *)
Theorem fetchCountryData_api_error (countryName : string) w r :
  network w (api_url countryName) = Normal r →
  status r ≠ 404%nat →
  ok r = false →
  Js.includes "Failed to fetch" (api_error_message r) = false →
  result (fetchCountryData countryName) w
  = Throw (Error ("API Error: " +:+ Js.nat_to_string (status r) +:+ " - " +:+ statusText r)).
Proof.
  intros Hnet Hst Hok Hinc. unfold result. rewrite fetchCountryData_run, Hnet, Hok.
  apply Nat.eqb_neq in Hst. rewrite Hst. cbn [negb fst].
  unfold rethrown. cbn [message]. by rewrite Hinc.
Qed.

(** X8: when the request itself fails, [fetchCountryData] throws the
    network-error message if the failure's message contains "Failed to
    fetch", and otherwise rethrows the failure as it is. *)
Theorem fetchCountryData_transport_failure (countryName : string) w (e : error) :
  network w (api_url countryName) = Throw e →
  (Js.includes "Failed to fetch" (message e) = true →
     result (fetchCountryData countryName) w = Throw (Error network_error_message))
  ∧ (Js.includes "Failed to fetch" (message e) = false →
     result (fetchCountryData countryName) w = Throw e).
Proof.
  intros Hnet. unfold result. rewrite fetchCountryData_run, Hnet. cbn [fst].
  unfold rethrown. split; intros ->; reflexivity.
Qed.

(** X9: no error thrown by [fetchCountryData] has "Failed to fetch" in its
    message. *)
Theorem fetchCountryData_errors_are_translated (countryName : string) w (e : error) :
  result (fetchCountryData countryName) w = Throw e →
  Js.includes "Failed to fetch" (message e) = false.
Proof.
  unfold result. rewrite fetchCountryData_run. cbn [fst].
  destruct (network w (api_url countryName)) as [r|e0].
  - destruct (status r =? 404)%nat; [intros [= <-]; apply rethrown_clean|].
    destruct (negb (ok r)); [intros [= <-]; apply rethrown_clean|].
    destruct (json r) as [[[|first rest]|]|e0]; try discriminate;
      intros [= <-]; first [apply rethrown_clean | reflexivity].
  - intros [= <-]. apply rethrown_clean.
Qed.

End ClientFailures.

Lemma fetchCountryData_api_error_witness :
  result (fetchCountryData "France")
         (sample_world "France" (answer_with (Response 500 "Internal Server Error" (Normal None))))
  = Throw (Error "API Error: 500 - Internal Server Error").
Proof.
  refine (fetchCountryData_api_error "France"
            (sample_world "France" (answer_with (Response 500 "Internal Server Error" (Normal None))))
            (Response 500 "Internal Server Error" (Normal None)) _ _ _ _);
    first [reflexivity | discriminate].
Defined.

Lemma fetchCountryData_transport_failure_witness :
  result (fetchCountryData "France" : @M Z _) (themed_world "light")
  = Throw (Error network_error_message).
Proof.
  refine (proj1 (fetchCountryData_transport_failure "France" (themed_world "light")
                   (Error "Failed to fetch") _) _); reflexivity.
Defined.

Lemma fetchCountryData_errors_are_translated_witness :
  Js.includes "Failed to fetch" (message (Error network_error_message)) = false.
Proof.
  refine (fetchCountryData_errors_are_translated "France" (themed_world "light")
            (Error network_error_message) _).
  reflexivity.
Defined.

(** ** Rendering: the first missing property, and badges *)

Section RenderingEdges.
Context {number : Type}.
Variable toLocaleString : number → string.
Variable number_to_string : number → string.
Implicit Types w : @world number.
Implicit Types c : @country number.

Abbreviation render := (displayCountryInfo toLocaleString number_to_string).

Lemma displayCountryInfo_result c w :
  result (render c) w =
  match first_missing c with
  | Some key => Throw (TypeError_undefined key)
  | None => Normal ()
  end.
Proof.
  unfold first_missing.
  destruct (name c) as [nm|] eqn:Hn; [|unfold result, displayCountryInfo; by rewrite Hn].
  destruct (flags c) as [fl|] eqn:Hf; [|unfold result, displayCountryInfo; by rewrite Hn, Hf].
  destruct (population c) as [p|] eqn:Hp;
    [|unfold result, displayCountryInfo; by rewrite Hn, Hf, Hp].
  destruct (area c) as [a|] eqn:Ha;
    [|unfold result, displayCountryInfo; by rewrite Hn, Hf, Hp, Ha].
  destruct (latlng c) as [ll|] eqn:Hl.
  2: { unfold result, displayCountryInfo. rewrite Hn, Hf, Hp, Ha, Hl.
       display_step. by rewrite !forEach_appendChild. }
  destruct (timezones c) as [tz|] eqn:Ht.
  2: { unfold result, displayCountryInfo. rewrite Hn, Hf, Hp, Ha, Hl, Ht.
       display_step. by rewrite !forEach_appendChild. }
  destruct (idd c) as [i|] eqn:Hi.
  2: { unfold result, displayCountryInfo. rewrite Hn, Hf, Hp, Ha, Hl, Ht, Hi.
       display_step. by rewrite !forEach_appendChild. }
  cbn [present negb]. eapply rendered_result; eassumption.
Qed.

(** X10: [displayCountryInfo] raises for the first property, in the order
    name, flags, population, area, latlng, timezones, idd, that the record
    lacks, with the [TypeError] of reading "common", "svg",
    "toLocaleString", "toLocaleString", "0", "join" or "root" of
    [undefined]; it returns when the record lacks none of them. *)
Theorem displayCountryInfo_raises_at_first_missing c w :
  result (render c) w =
  match first_missing c with
  | Some key => Throw (Error ("Cannot read properties of undefined (reading '" +:+ key +:+ "')"))
  | None => Normal ()
  end
  ∧ (first_missing c = None ↔ raises_nothing c = true).
Proof.
  split; [apply displayCountryInfo_result|].
  unfold first_missing, raises_nothing.
  destruct (name c), (flags c), (population c), (area c), (latlng c), (timezones c), (idd c);
    cbn; split; congruence.
Qed.

(** X11: after a rendering that completes, the languages and the domains
    containers hold the badges of the record rendered and nothing else,
    whatever they held before: one badge per language in the map's order
    (one "Not available" badge without a map, none for an empty map), one
    per top-level domain, each with its text. *)
Theorem badges_are_replaced c w :
  result (render c) w = Normal () →
  map badge_textContent (children (byId (exec (render c) w) "languages"))
  = getLanguages (languages c)
  ∧ map badge_textContent (children (byId (exec (render c) w) "domains"))
    = default ["Not available"] (tld c)
  ∧ length (children (byId (exec (render c) w) "languages"))
    = match languages c with Some o => length o | None => 1%nat end.
Proof.
  intros Hr%displayCountryInfo_returns_iff.
  destruct (raises_nothing_fields c Hr) as (nm & fl & p & a & ll & tz & i & Hn & Hf & Hp & Ha & Hl & Ht & Hi).
  rewrite (rendered_languages _ _ c w nm fl p a ll tz i Hn Hf Hp Ha Hl Ht Hi).
  rewrite (rendered_domains _ _ c w nm fl p a ll tz i Hn Hf Hp Ha Hl Ht Hi).
  assert (Htxt : ∀ l : list string, map badge_textContent (map createBadge l) = l).
  { intros l. rewrite map_map. cbn [createBadge badge_textContent]. apply map_id. }
  rewrite !Htxt, length_map. repeat split.
  destruct (languages c) as [o|]; [|reflexivity].
  unfold getLanguages, Js.Object_values. apply length_map.
Qed.

End RenderingEdges.

Lemma badges_are_replaced_witness :
  map badge_textContent
      (children (byId (exec (displayCountryInfo Z_toLocaleString Z_to_string france)
                            (exec (displayCountryInfo Z_toLocaleString Z_to_string bare_record)
                                  (sample_world "France" (answer_with not_found_response))))
                      "languages"))
  = ["French"].
Proof.
  refine (proj1 (badges_are_replaced Z_toLocaleString Z_to_string france _ _)).
  reflexivity.
Defined.

(** ** The search, end to end *)

Section SearchOutcomes.
Context {number : Type}.
Variable toLocaleString : number → string.
Variable number_to_string : number → string.
Implicit Types w : @world number.
Implicit Types c : @country number.

Abbreviation lookup_and_show := (searchCountry toLocaleString number_to_string).
Abbreviation show_record := (displayCountryInfo toLocaleString number_to_string).
Abbreviation name_typed w := (Js.trim (value (byId w "countryInput"))).

(** The lookup does not depend on which panel is shown. *)
Lemma fetchCountryData_after_showLoading (countryName : string) w :
  fetchCountryData countryName (exec showLoading w)
  = (result (fetchCountryData countryName) w, requested countryName (exec showLoading w)).
Proof. unfold result. by rewrite !fetchCountryData_run. Qed.

(** The three ways a search for a typed name ends. *)
Lemma searchCountry_ends w :
  name_typed w ≠ "" →
  lookup_and_show w =
  match result (fetchCountryData (name_typed w)) w with
  | Throw e => showError (message e) (requested (name_typed w) (exec showLoading w))
  | Normal c =>
      match result (show_record c) (requested (name_typed w) (exec showLoading w)) with
      | Normal _ =>
          showResults (exec (show_record c) (requested (name_typed w) (exec showLoading w)))
      | Throw e =>
          showError (message e)
                    (exec (show_record c) (requested (name_typed w) (exec showLoading w)))
      end
  end.
Proof.
  intros H. rewrite (searchCountry_named toLocaleString number_to_string w H), fetchCountryData_after_showLoading.
  destruct (result (fetchCountryData (name_typed w)) w) as [c|e]; [|reflexivity].
  unfold result, exec.
  by destruct (displayCountryInfo _ _ c _) as [[[]|e] w2].
Qed.

Lemma searchCountry_returns w : result lookup_and_show w = Normal ().
Proof.
  destruct (decide (name_typed w = "")) as [Hb|Hn].
  - unfold result. by rewrite (searchCountry_blank toLocaleString number_to_string w Hb).
  - unfold result. rewrite (searchCountry_ends w Hn).
    destruct (result (fetchCountryData _) w) as [c|e]; [|reflexivity].
    by destruct (result (show_record c) _) as [[]|e].
Qed.

(** X12: [searchCountry] never throws and never leaves the loading panel
    up: it ends with the results panel alone or the error panel alone
    visible, and with the results panel only if a name was typed. *)
Theorem searchCountry_always_settles w :
  result lookup_and_show w = Normal ()
  ∧ (in_state (exec lookup_and_show w) Results ∨ in_state (exec lookup_and_show w) Failed)
  ∧ ¬ in_state (exec lookup_and_show w) Loading
  ∧ (in_state (exec lookup_and_show w) Results → name_typed w ≠ "").
Proof.
  split; [apply searchCountry_returns|].
  assert (Hends : (name_typed w ≠ "" ∧ in_state (exec lookup_and_show w) Results)
                  ∨ in_state (exec lookup_and_show w) Failed).
  { destruct (decide (name_typed w = "")) as [Hb|Hn].
    - right. unfold exec. rewrite (searchCountry_blank toLocaleString number_to_string w Hb). apply showError_state.
    - unfold exec. rewrite (searchCountry_ends w Hn).
      destruct (result (fetchCountryData _) w) as [c|e]; [|right; apply showError_state].
      destruct (result (show_record c) _) as [[]|e];
        [left; split; [done | apply showResults_state] | right; apply showError_state]. }
  split; [tauto|]. split.
  - intros HL. destruct Hends as [[_ H]|H]; by pose proof (in_state_unique _ _ _ HL H).
  - intros HR. destruct Hends as [[H _]|H]; [done|].
    by pose proof (in_state_unique _ _ _ HR H).
Qed.

(** X13: a search for a typed name that is answered with an ok response
    whose first match has every property the rendering reads through ends
    with the results panel alone visible and scrolled to, after one request
    for the trimmed name, the page showing that first match. *)
Theorem searchCountry_shows_first_match w (r : @response number) c rest :
  name_typed w ≠ "" →
  network w (api_url (name_typed w)) = Normal r →
  ok r = true →
  json r = Normal (Some (c :: rest)) →
  raises_nothing c = true →
  in_state (exec lookup_and_show w) Results
  ∧ scrolledTo (exec lookup_and_show w) = Some "resultsContainer"
  ∧ requests (exec lookup_and_show w) = (requests w ++ [api_url (name_typed w)])%list
  ∧ textContent (byId (exec lookup_and_show w) "countryName") = default "" (name c ≫= common)
  ∧ textContent (byId (exec lookup_and_show w) "officialName") = default "" (name c ≫= official)
  ∧ textContent (byId (exec lookup_and_show w) "currencies") = getCurrencies (currencies c)
  ∧ map badge_textContent (children (byId (exec lookup_and_show w) "languages"))
    = getLanguages (languages c).
Proof.
  intros Hname Hnet Hok Hjson Hc.
  assert (Hfetch : result (fetchCountryData (name_typed w)) w = Normal c).
  { unfold result. rewrite fetchCountryData_run, Hnet, (ok_not_404 _ Hok), Hok, Hjson.
    reflexivity. }
  unfold exec at 1 2 3 4 5 6 7. rewrite (searchCountry_ends w Hname), Hfetch.
  set (w1 := requested (name_typed w) (exec showLoading w)).
  pose proof (proj2 (displayCountryInfo_returns_iff toLocaleString number_to_string c w1) Hc) as Hres.
  rewrite Hres.
  destruct (raises_nothing_fields c Hc) as (nm & fl & p & a & ll & tz & i & Hn & Hf & Hp & Ha & Hl & Ht & Hi).
  destruct (rendered_names toLocaleString number_to_string c w1 nm fl p a ll tz i Hn Hf Hp Ha Hl Ht Hi) as [Hcn Hon].
  destruct (rendered_statistics toLocaleString number_to_string c w1 nm fl p a ll tz i Hn Hf Hp Ha Hl Ht Hi) as (_ & _ & Hcur).
  pose proof (rendered_languages toLocaleString number_to_string c w1 nm fl p a ll tz i Hn Hf Hp Ha Hl Ht Hi) as Hlang.
  pose proof (displayCountryInfo_keeps_requests toLocaleString number_to_string c w1) as Hreq.
  split; [apply showResults_state|]. split; [reflexivity|].
  split; [exact Hreq|].
  rewrite Hn. cbn [mbind option_bind].
  repeat split.
  - rewrite <- Hcn. unfold showResults. run. by read_element.
  - rewrite <- Hon. unfold showResults. run. by read_element.
  - rewrite <- Hcur. unfold showResults. run. by read_element.
  - assert (children (byId (showResults (exec (show_record c) w1)).2 "languages")
            = children (byId (exec (show_record c) w1) "languages")) as ->
      by (unfold showResults; run; by read_element).
    rewrite Hlang, map_map. cbn [createBadge badge_textContent]. apply map_id.
Qed.

(** X14: when the first match lacks a property the rendering reads through,
    the search ends with the error panel alone visible, showing the
    [TypeError] raised for the first such property; the page is not
    scrolled. *)
Theorem searchCountry_incomplete_record w (r : @response number) c rest (key : string) :
  name_typed w ≠ "" →
  network w (api_url (name_typed w)) = Normal r →
  ok r = true →
  json r = Normal (Some (c :: rest)) →
  first_missing c = Some key →
  in_state (exec lookup_and_show w) Failed
  ∧ errorParagraph (exec lookup_and_show w)
    = "Cannot read properties of undefined (reading '" +:+ key +:+ "')"
  ∧ scrolledTo (exec lookup_and_show w) = scrolledTo w.
Proof.
  intros Hname Hnet Hok Hjson Hc.
  assert (Hfetch : result (fetchCountryData (name_typed w)) w = Normal c).
  { unfold result. rewrite fetchCountryData_run, Hnet, (ok_not_404 _ Hok), Hok, Hjson.
    reflexivity. }
  unfold exec at 1 2 3. rewrite (searchCountry_ends w Hname), Hfetch.
  rewrite displayCountryInfo_result, Hc.
  split; [apply showError_state|]. split; [reflexivity|].
  exact (displayCountryInfo_keeps_scrolledTo toLocaleString number_to_string c
           (requested (name_typed w) (exec showLoading w))).
Qed.

(** X15: when the lookup fails, the search ends with the error panel alone
    visible, showing the message of the error thrown, and the texts,
    sources and badges of every element other than the error region (which
    holds the paragraph just rewritten) stay as they were, so an earlier
    result is kept. *)
Theorem searchCountry_lookup_failure w (e : error) :
  name_typed w ≠ "" →
  result (fetchCountryData (name_typed w)) w = Throw e →
  in_state (exec lookup_and_show w) Failed
  ∧ errorParagraph (exec lookup_and_show w) = message e
  ∧ (∀ id, id ≠ "errorMessage" →
           textContent (byId (exec lookup_and_show w) id) = textContent (byId w id)
           ∧ src (byId (exec lookup_and_show w) id) = src (byId w id)
           ∧ children (byId (exec lookup_and_show w) id) = children (byId w id)).
Proof.
  intros Hname Hfetch. unfold exec at 1 2 3 4 5.
  rewrite (searchCountry_ends w Hname), Hfetch.
  split; [apply showError_state|]. split; [reflexivity|].
  intros id _. unfold showError, showLoading, requested. run.
  repeat split;
    repeat first [rewrite (alter_keeps_part textContent) by (intros ?; reflexivity)
                 | rewrite (alter_keeps_part src) by (intros ?; reflexivity)
                 | rewrite (alter_keeps_part children) by (intros ?; reflexivity)];
    reflexivity.
Qed.

End SearchOutcomes.

Lemma searchCountry_shows_first_match_witness :
  in_state (exec (searchCountry Z_toLocaleString Z_to_string)
                 (sample_world " France " (answer_with (ok_response (Some [france; bare_record])))))
           Results
  ∧ textContent (byId (exec (searchCountry Z_toLocaleString Z_to_string)
                            (sample_world " France "
                               (answer_with (ok_response (Some [france; bare_record])))))
                      "officialName")
    = "French Republic".
Proof.
  pose proof (searchCountry_shows_first_match Z_toLocaleString Z_to_string
                (sample_world " France " (answer_with (ok_response (Some [france; bare_record]))))
                (ok_response (Some [france; bare_record])) france [bare_record])
    as H.
  destruct H as (Hst & _ & _ & _ & Hon & _); try reflexivity; [discriminate|].
  split; [exact Hst | exact Hon].
Defined.

Lemma searchCountry_incomplete_record_witness :
  errorParagraph (exec (searchCountry Z_toLocaleString Z_to_string)
                       (sample_world "Nowhere"
                          (answer_with (ok_response
                             (Some [Country None None None None None None None None None
                                            None None None None None None None None])))))
  = "Cannot read properties of undefined (reading 'common')".
Proof.
  refine (proj1 (proj2 (searchCountry_incomplete_record Z_toLocaleString Z_to_string
            (sample_world "Nowhere"
               (answer_with (ok_response
                  (Some [Country None None None None None None None None None
                                 None None None None None None None None]))))
            (ok_response
               (Some [Country None None None None None None None None None
                              None None None None None None None None]))
            (Country None None None None None None None None None
                     None None None None None None None None)
            [] "common" _ _ _ _ _)));
    first [reflexivity | discriminate].
Defined.

Lemma searchCountry_lookup_failure_witness :
  errorParagraph (exec (searchCountry Z_toLocaleString Z_to_string)
                       (sample_world "Atlantis" (answer_with not_found_response)))
  = "Country " +:+ Js.dquote +:+ "Atlantis" +:+ Js.dquote
    +:+ " not found. Please check the spelling and try again.".
Proof.
  refine (proj1 (proj2 (searchCountry_lookup_failure Z_toLocaleString Z_to_string
            (sample_world "Atlantis" (answer_with not_found_response))
            (Error (not_found_message "Atlantis")) _ _)));
    first [reflexivity | discriminate].
Defined.

(** ** A session of user actions *)

Section Sessions.
Context {number : Type}.
Variable toLocaleString : number → string.
Variable number_to_string : number → string.
Implicit Types w : @world number.

Abbreviation on_search := (searchCountry toLocaleString number_to_string).
Abbreviation act := (perform toLocaleString number_to_string).
Abbreviation run_session := (session toLocaleString number_to_string).

(** Consistency of the theme store depends on the root attribute, the
    storage and the class lists of the two icons only. *)
Lemma theme_consistent_transfer w w' :
  documentElement w' = documentElement w →
  localStorage w' = localStorage w →
  classList (byId w' "sunIcon") = classList (byId w "sunIcon") →
  classList (byId w' "moonIcon") = classList (byId w "moonIcon") →
  theme_consistent w → theme_consistent w'.
Proof.
  unfold theme_consistent, icons_match, visible, persisted_theme, applied_theme.
  by intros -> -> -> ->.
Qed.

Lemma searchCountry_keeps_theme w :
  theme_consistent w → theme_consistent (exec on_search w).
Proof.
  apply theme_consistent_transfer; revert w.
  - change (keeps documentElement on_search). unfold_script; frame kept_part.
  - change (keeps localStorage on_search). unfold_script; frame kept_part.
  - change (keeps (λ w, classList (byId w "sunIcon")) on_search).
    unfold_script; frame kept_part.
  - change (keeps (λ w, classList (byId w "moonIcon")) on_search).
    unfold_script; frame kept_part.
Qed.

Lemma perform_keeps_theme (a : action) w :
  theme_consistent w →
  result (act a) w = Normal () ∧ theme_consistent (exec (act a) w).
Proof.
  intros Hw. destruct a as [text|[| |key]]; cbn [perform dispatch].
  - split; [reflexivity|]. revert Hw. by apply theme_consistent_transfer.
  - split; [|unfold exec; rewrite toggleTheme_unfold; apply setTheme_consistent].
    unfold result. rewrite toggleTheme_unfold. apply setTheme_result.
  - split; [apply searchCountry_returns | by apply searchCountry_keeps_theme].
  - unfold onKeypress. destruct (String.eqb key "Enter").
    + split; [apply searchCountry_returns | by apply searchCountry_keeps_theme].
    + by split.
Qed.

Lemma forEach_keeps_theme (actions : list action) w :
  theme_consistent w →
  result (forEach actions act) w = Normal ()
  ∧ theme_consistent (exec (forEach actions act) w).
Proof.
  revert w. induction actions as [|a actions IH]; intros w Hw; [by split|].
  destruct (perform_keeps_theme a w Hw) as [Hr Hc].
  unfold result, exec in *. cbn [forEach]. unfold mbind, M_bind.
  destruct (act a w) as [[[]|e] w1]; [|discriminate Hr].
  apply IH. exact Hc.
Qed.

(** X16: after the page has loaded, whatever the user types, clicks or keys
    in, in any number and order, no listener throws, and the stored theme
    is the applied theme with the toggle showing the icon of that theme. *)
Theorem session_keeps_theme_consistent (actions : list action) w :
  result (run_session actions) w = Normal ()
  ∧ persisted_theme (exec (run_session actions) w) = applied_theme (exec (run_session actions) w)
  ∧ is_Some (applied_theme (exec (run_session actions) w))
  ∧ icons_match (exec (run_session actions) w).
Proof.
  assert (H : result (run_session actions) w = Normal ()
              ∧ theme_consistent (exec (run_session actions) w)).
  { unfold session, result, exec, mbind, M_bind.
    rewrite initializeTheme_unfold.
    match goal with |- context [setTheme ?t w] =>
      pose proof (setTheme_result w t) as Hr; pose proof (setTheme_consistent w t) as Hc;
      unfold result, exec in Hr, Hc; destruct (setTheme t w) as [[[]|e] w1] end;
      [|discriminate Hr].
    apply forEach_keeps_theme. exact Hc. }
  destruct H as [Hr (Hp & Hs & Hi)]. auto.
Qed.

(** A key other than "Enter" pressed in the input field changes nothing
    and sends no request; "Enter" runs the search, like a click on the
    search button. *)
Lemma keypress_searches_on_enter_only (key : string) w :
  (key ≠ "Enter" →
     perform toLocaleString number_to_string (Fire (Keypress key)) w = (Normal (), w))
  ∧ perform toLocaleString number_to_string (Fire (Keypress "Enter")) w
    = perform toLocaleString number_to_string (Fire SearchClick) w.
Proof.
  split; [|reflexivity].
  intros Hk. cbn [perform dispatch]. unfold onKeypress.
  by destruct (String.eqb_spec key "Enter").
Qed.

End Sessions.

(** ** The address requested *)

Lemma string_app_assoc (a b c : string) : (a +:+ b) +:+ c = a +:+ b +:+ c.
Proof.
  induction a as [|ch a IH]; [reflexivity|].
  change (String ch (a +:+ b) +:+ c = String ch (a +:+ b +:+ c)).
  change (String ch ((a +:+ b) +:+ c) = String ch (a +:+ b +:+ c)). by rewrite IH.
Qed.

Lemma list_ascii_of_string_app (a b : string) :
  list_ascii_of_string (a +:+ b) = (list_ascii_of_string a ++ list_ascii_of_string b)%list.
Proof.
  induction a as [|ch a IH]; [reflexivity|].
  change (String ch a +:+ b) with (String ch (a +:+ b)).
  cbn [list_ascii_of_string]. by rewrite IH.
Qed.

Lemma encode_unit_url_safe (ch : ascii) :
  forallb url_safe (list_ascii_of_string (Js.encode_unit ch)) = true.
Proof. destruct ch as [[] [] [] [] [] [] [] []]; reflexivity. Qed.

Lemma encode_unit_unreserved (ch : ascii) :
  Js.is_uri_unreserved ch = true → Js.encode_unit ch = String ch EmptyString.
Proof. unfold Js.encode_unit. by intros ->. Qed.

Lemma read_unit_encode_unit (ch : ascii) (rest : string) :
  read_unit (Js.encode_unit ch +:+ rest) = Some (ch, rest).
Proof. destruct ch as [[] [] [] [] [] [] [] []]; reflexivity. Qed.

Lemma encodeURIComponent_inj (s1 s2 : string) :
  Js.encodeURIComponent s1 = Js.encodeURIComponent s2 → s1 = s2.
Proof.
  revert s2. induction s1 as [|c1 s1 IH]; intros [|c2 s2] H; cbn [Js.encodeURIComponent] in H.
  - reflexivity.
  - apply (f_equal read_unit) in H. rewrite read_unit_encode_unit in H. discriminate H.
  - apply (f_equal read_unit) in H. rewrite read_unit_encode_unit in H. discriminate H.
  - apply (f_equal read_unit) in H. rewrite !read_unit_encode_unit in H.
    injection H as -> H. by rewrite (IH _ H).
Qed.

(** X17: the address requested is the name-search address followed by the
    escaped name, which is made of unreserved characters and "%" only (no
    space, slash, "?", "#" or "&" of the name reaches the address as
    such); a name of unreserved characters is sent as it is. *)
Theorem api_url_is_escaped (countryName : string) :
  api_url countryName = "https://restcountries.com/v3.1/name/" +:+ Js.encodeURIComponent countryName
  ∧ forallb url_safe (list_ascii_of_string (Js.encodeURIComponent countryName)) = true
  ∧ (forallb Js.is_uri_unreserved (list_ascii_of_string countryName) = true →
     api_url countryName = "https://restcountries.com/v3.1/name/" +:+ countryName).
Proof.
  split; [reflexivity|]. split.
  - induction countryName as [|ch s IH]; [reflexivity|].
    cbn [Js.encodeURIComponent]. rewrite list_ascii_of_string_app, forallb_app.
    by rewrite encode_unit_url_safe, IH.
  - intros H. unfold api_url. f_equal.
    induction countryName as [|ch s IH]; [reflexivity|].
    cbn [list_ascii_of_string forallb] in H. apply andb_prop in H as [Hch Hs].
    cbn [Js.encodeURIComponent]. by rewrite (encode_unit_unreserved ch Hch), (IH Hs).
Qed.

Lemma api_url_is_escaped_witness :
  api_url "Cote-d'Ivoire" = "https://restcountries.com/v3.1/name/Cote-d'Ivoire".
Proof.
  refine (proj2 (proj2 (api_url_is_escaped "Cote-d'Ivoire")) _). reflexivity.
Defined.

(** X18: two different names are never looked up at the same address. *)
Theorem api_url_injective (name1 name2 : string) :
  api_url name1 = api_url name2 → name1 = name2.
Proof.
  unfold api_url. intros H. apply encodeURIComponent_inj.
  injection H as H. exact H.
Qed.

Lemma api_url_injective_witness : "France" = "France".
Proof. exact (api_url_injective "France" "France" eq_refl). Defined.

(** ** Currency lists *)

Lemma concat_app (sep : string) (l1 l2 : list string) :
  l1 ≠ [] → l2 ≠ [] →
  String.concat sep (l1 ++ l2) = String.concat sep l1 +:+ sep +:+ String.concat sep l2.
Proof.
  intros H1 H2. induction l1 as [|x [|y l1] IH]; [done| |].
  - destruct l2 as [|z l2]; [done|]. reflexivity.
  - change (String.concat sep ((x :: y :: l1) ++ l2))
      with (x +:+ sep +:+ String.concat sep ((y :: l1) ++ l2)).
    rewrite IH by done.
    change (String.concat sep (x :: y :: l1)) with (x +:+ sep +:+ String.concat sep (y :: l1)).
    by rewrite !string_app_assoc.
Qed.

(** X19: [getCurrencies] puts ", " between the entries and nowhere else:
    the text of two non-empty maps put one after the other is the two texts
    with ", " in between; a present but empty map gives the empty text,
    not "Not available". *)
Theorem getCurrencies_separates_entries (o1 o2 : list (string * currency)) :
  o1 ≠ [] → o2 ≠ [] →
  getCurrencies (Some (o1 ++ o2)%list) = getCurrencies (Some o1) +:+ ", " +:+ getCurrencies (Some o2)
  ∧ getCurrencies (Some []) = "".
Proof.
  intros H1 H2. split; [|reflexivity].
  unfold getCurrencies, Js.join, Js.Object_values. rewrite !map_app.
  apply concat_app; by destruct o1, o2.
Qed.

Lemma getCurrencies_separates_entries_witness :
  getCurrencies (Some ([("EUR", Currency (Some "Euro") (Some "E"))]
                       ++ [("USD", Currency (Some "US Dollar") (Some "$"))])%list)
  = "Euro (E), US Dollar ($)".
Proof.
  refine (proj1 (getCurrencies_separates_entries
                   [("EUR", Currency (Some "Euro") (Some "E"))]
                   [("USD", Currency (Some "US Dollar") (Some "$"))] _ _));
    discriminate.
Defined.

(** X20: a currency without a name is shown as "undefined (Symbol)" when it
    has a non-empty symbol, and as the empty text (a bare separator in a
    longer list) when it has none. *)
Theorem getCurrencies_nameless_currency (code : string) (sym : option string)
    (o : list (string * currency)) :
  o ≠ [] →
  getCurrencies (Some ((code, Currency None sym) :: o))
  = (if Js.truthy sym then "undefined (" +:+ Js.template sym +:+ ")" else "")
    +:+ ", " +:+ getCurrencies (Some o).
Proof.
  intros Ho.
  change ((code, Currency None sym) :: o) with ([(code, Currency None sym)] ++ o)%list.
  unfold getCurrencies, Js.join, Js.Object_values. rewrite !map_app.
  rewrite concat_app by (by destruct o).
  f_equal. cbn [map snd]. unfold currency_entry. cbn [symbol curr_name String.concat].
  by destruct (Js.truthy sym).
Qed.

Lemma getCurrencies_nameless_currency_witness :
  getCurrencies (Some [("XXX", Currency None None); ("USD", Currency (Some "US Dollar") None)])
  = ", US Dollar".
Proof.
  refine (getCurrencies_nameless_currency "XXX" None
            [("USD", Currency (Some "US Dollar") None)] _).
  discriminate.
Defined.

(** ** Names that contain the text the handler looks for *)

Lemma prefix_split (n s : string) : String.prefix n s = true → ∃ q, s = n +:+ q.
Proof.
  revert s. induction n as [|c n IH]; intros s H; [by exists s|].
  destruct s as [|c' s]; [discriminate H|]. cbn [String.prefix] in H.
  destruct (Ascii.ascii_dec c c') as [->|]; [|discriminate H].
  destruct (IH s H) as [q ->]. by exists q.
Qed.

(** [includes] holds exactly of the strings that have the needle between
    two others. *)
Lemma includes_split (n s : string) :
  Js.includes n s = true ↔ ∃ p q, s = p +:+ n +:+ q.
Proof.
  split.
  - induction s as [|c s IH]; cbn [Js.includes].
    + rewrite orb_false_r. intros [q ->]%prefix_split. by exists "", q.
    + intros [[q ->]%prefix_split | H]%orb_prop; [by exists "", q|].
      destruct (IH H) as (p & q & ->). by exists (String c p), q.
  - intros (p & q & ->). apply includes_infix.
Qed.

Lemma includes_inside (n s a b : string) :
  Js.includes n s = true → Js.includes n (a +:+ s +:+ b) = true.
Proof.
  intros (p & q & ->)%includes_split. apply includes_split.
  exists (a +:+ p), (q +:+ b). by rewrite !string_app_assoc.
Qed.

(** X21: for every searched name that contains "Failed to fetch", a 404
    makes [fetchCountryData] throw the network-error message, its handler
    having caught the not-found error that quotes the name. *)
Theorem fetchCountryData_not_found_caught_by_handler {number : Type}
    (countryName : string) (w : @world number) (r : @response number) :
  network w (api_url countryName) = Normal r →
  status r = 404%nat →
  Js.includes "Failed to fetch" countryName = true →
  result (fetchCountryData countryName) w = Throw (Error network_error_message).
Proof.
  intros Hnet Hst Hinc. unfold result. rewrite fetchCountryData_run, Hnet, Hst.
  cbn [Nat.eqb fst]. unfold rethrown. cbn [message].
  assert (Js.includes "Failed to fetch" (not_found_message countryName) = true) as ->
    by exact (includes_inside _ _ ("Country " +:+ Js.dquote)
                (Js.dquote +:+ " not found. Please check the spelling and try again.") Hinc).
  reflexivity.
Qed.

Lemma fetchCountryData_not_found_caught_by_handler_witness :
  result (fetchCountryData "Why Failed to fetch?")
         (sample_world "Why Failed to fetch?" (answer_with not_found_response))
  = Throw (Error network_error_message).
Proof.
  refine (fetchCountryData_not_found_caught_by_handler "Why Failed to fetch?"
            (sample_world "Why Failed to fetch?" (answer_with not_found_response))
            not_found_response _ _ _); reflexivity.
Defined.
